(** * Publication-date extraction: [newspaper/extractors/pubdate_extractor.py]

    A shallow embedding of [PubdateExtractor.parse] and the properties of its
    four harvesting stages and of its scorer/selector.

    Conventions of the embedding
    - Python [str] is [string]; a character is a code point below 256.  On
      that range [str.lower] and [re.IGNORECASE] act on the letters A-Z only.
    - Python [int] is [Z].
    - Values decoded from JSON-LD, and the [None]/[str] results of attribute
      look-ups, are values of [pyobj].
    - A [dict] is an association list in insertion order; [dict_get] returns
      the first binding of a key.
    - A call either returns or raises: [result].  Two kinds of exception
      escape [parse]: the [TypeError] of iterating a value that is not
      iterable, and an exception of the date parser whose class is none of
      the four that [parse_date_str] catches.
    - The modules that are not part of this file ([newspaper.parsers],
      [newspaper.urls], [newspaper.extractors.defines], [dateutil]) and the
      wall clock are parameters of the development. *)

From Stdlib Require Import ZArith List String Ascii Bool Lia.
From Stdlib Require Import Permutation Sorted.
Import ListNotations.
Local Open Scope string_scope.
Local Open Scope list_scope.
Local Open Scope Z_scope.

(* ================================================================== *)
(** ** Strings *)

Module Str.

(** [c.lower()] on a code point below 256 that is compared with ASCII
    letters: only A-Z change. *)
Definition lower_char (c : ascii) : ascii :=
  let n := N_of_ascii c in
  if ((65 <=? n) && (n <=? 90))%N then ascii_of_N (n + 32) else c.

Fixpoint lower (s : string) : string :=
  match s with
  | EmptyString => EmptyString
  | String c s' => String (lower_char c) (lower s')
  end.

Fixpoint startswith (p s : string) : bool :=
  match p, s with
  | EmptyString, _ => true
  | String _ _, EmptyString => false
  | String a p', String b s' => Ascii.eqb a b && startswith p' s'
  end.

(** [p in s] for strings. *)
Fixpoint contains (p s : string) : bool :=
  startswith p s ||
  match s with
  | EmptyString => false
  | String _ s' => contains p s'
  end.

(** The characters of a string, as [iter(s)] yields them. *)
Fixpoint chars (s : string) : list string :=
  match s with
  | EmptyString => []
  | String c s' => String c EmptyString :: chars s'
  end.

Definition is_empty (s : string) : bool :=
  match s with EmptyString => true | _ => false end.

End Str.

(** [re.search(p1|...|pn, text, re.I)] for a pattern that is an alternation
    of literal strings: some alternative occurs in [text], letter case
    ignored.  Exact for texts of code points below 256, which is what a
    [string] holds: there [re.I] folds the letters A-Z only.  The further
    folds of [re.I] onto the letters s and i (U+017F, U+0130, U+0131) are
    of characters that a [string] cannot hold. *)
Definition re_search_I (alternatives : list string) (text : string) : bool :=
  existsb (fun p => Str.contains (Str.lower p) (Str.lower text)) alternatives.

(** The character written [\b] in a Python string literal that is not a raw
    string: U+0008, backspace. *)
Definition BACKSPACE : ascii := ascii_of_N 8.

(* ================================================================== *)
(** ** [datetime] *)

Record datetime : Type := mk_datetime {
  year : Z; month : Z; day : Z;
  hour : Z; minute : Z; second : Z; microsecond : Z;
  tzinfo : option Z   (* offset from UTC in minutes, [None] when naive *)
}.

Module Calendar.

Definition is_leap (y : Z) : bool :=
  (y mod 4 =? 0) && (negb (y mod 100 =? 0) || (y mod 400 =? 0)).

Definition days_before_year (y : Z) : Z :=
  let y' := y - 1 in y' * 365 + y' / 4 - y' / 100 + y' / 400.

Definition DAYS_BEFORE_MONTH : list Z :=
  [0; 31; 59; 90; 120; 151; 181; 212; 243; 273; 304; 334].

Definition days_before_month (y m : Z) : Z :=
  nth (Z.to_nat (m - 1)) DAYS_BEFORE_MONTH 0
  + (if (2 <? m) && is_leap y then 1 else 0).

(** [d.date().toordinal()] *)
Definition toordinal (d : datetime) : Z :=
  days_before_year (year d) + days_before_month (year d) (month d) + day d.

(** [(a.date() - b.date()).days] *)
Definition days_between (a b : datetime) : Z := toordinal a - toordinal b.

End Calendar.

(** A calendar date at midnight, naive. *)
Definition ymd (y m d : Z) : datetime := mk_datetime y m d 0 0 0 0 None.

(* ================================================================== *)
(** ** Python values and results *)

#[warnings="-register-all"]
Inductive pyobj : Type :=
| PyNone
| PyBool (b : bool)
| PyNum (n : Z)                 (* [int] or [float]: handled alike below *)
| PyStr (s : string)
| PyList (l : list pyobj)
| PyDict (d : list (string * pyobj)).

Definition dict : Type := list (string * pyobj).

Fixpoint dict_get (k : string) (d : dict) : option pyobj :=
  match d with
  | [] => None
  | (k', v) :: d' => if String.eqb k k' then Some v else dict_get k d'
  end.

(** [k in d] *)
Definition dict_contains (k : string) (d : dict) : bool :=
  match dict_get k d with Some _ => true | None => false end.

(** [d.get(k)]: [None] when the key is missing. *)
Definition dict_get_or_None (k : string) (d : dict) : pyobj :=
  match dict_get k d with Some v => v | None => PyNone end.

Definition of_option (o : option string) : pyobj :=
  match o with Some s => PyStr s | None => PyNone end.

(** The exceptions that can leave [parse]: [TypeError], and an exception of
    another class, which is none of [ValueError], [OverflowError],
    [AttributeError] and [TypeError]. *)
Inductive exn : Type :=
| TypeError
| OtherError (cls : string).

Inductive result (A : Type) : Type :=
| Ok (a : A)
| Raise (e : exn).
Arguments Ok {A} a.
Arguments Raise {A} e.

Definition bind {A B} (r : result A) (f : A -> result B) : result B :=
  match r with Ok a => f a | Raise e => Raise e end.

Notation "x <- c ;; k" := (bind c (fun x => k))
  (at level 61, c at next level, right associativity).

(** [for item in v]: the items a [for] loop visits, or the [TypeError] of a
    value that is not iterable. *)
Definition py_iter (v : pyobj) : result (list pyobj) :=
  match v with
  | PyList l => Ok l
  | PyDict d => Ok (map (fun kv => PyStr (fst kv)) d)
  | PyStr s => Ok (map PyStr (Str.chars s))
  | PyNone | PyBool _ | PyNum _ => Raise TypeError
  end.

(** [for x in xs: acc = acc + body(x)], where [body] may raise. *)
Fixpoint for_each {A B} (xs : list A) (body : A -> result (list B))
  : result (list B) :=
  match xs with
  | [] => Ok []
  | x :: xs' => ys <- body x ;; zs <- for_each xs' body ;; Ok (ys ++ zs)
  end.

(* ================================================================== *)
(** ** Candidates *)

Inductive date_type : Type := updated | published | unknown.

Definition date_type_eqb (a b : date_type) : bool :=
  match a, b with
  | updated, updated | published, published | unknown, unknown => true
  | _, _ => false
  end.

(** An entry of [date_matches]: [(datetime_obj, score, date_type)]. *)
Definition date_match : Type := datetime * Z * date_type.

Definition dm_date (c : date_match) : datetime := fst (fst c).
Definition dm_score (c : date_match) : Z := snd (fst c).
Definition dm_type (c : date_match) : date_type := snd c.

(** An element of the document tree, as the extractor reads it:
    [e.tag], [e.get(name)], [e.text]. *)
Record element : Type := mk_element {
  tag : string;
  attrib : list (string * string);
  text : option string
}.

Fixpoint assoc (k : string) (l : list (string * string)) : option string :=
  match l with
  | [] => None
  | (k', v) :: l' => if String.eqb k k' then Some v else assoc k l'
  end.

(** [e.get(name)] *)
Definition element_get (e : element) (name : string) : option string :=
  assoc name (attrib e).

(** An entry of [PUBLISH_DATE_TAGS]. *)
Record publish_date_tag : Type := mk_publish_date_tag {
  pdt_attribute : string;
  pdt_value : string;
  pdt_content : string
}.

(** The extractor object: the two retained fields. *)
Record PubdateExtractor : Type := mk_PubdateExtractor {
  pubdate : option datetime;
  updatedate : option datetime
}.

(* ================================================================== *)
(** ** Scorer / selector

    [date_matches.sort(key=lambda x: (x[1], x[2] == 'updated'), reverse=True)]
    followed by the two [next(...)] look-ups. *)

(** The sort key [(x[1], x[2] == 'updated')]. *)
Definition sort_key (c : date_match) : Z * bool :=
  (dm_score c, date_type_eqb (dm_type c) updated).

(** [k1 <= k2] on key tuples: lexicographic, with [False < True]. *)
Definition key_le (k1 k2 : Z * bool) : bool :=
  (fst k1 <? fst k2) || ((fst k1 =? fst k2) && implb (snd k1) (snd k2)).

Definition dm_le (a b : date_match) : bool := key_le (sort_key a) (sort_key b).

(** A stable ascending sort.  [list.sort] is stable, and the result of a
    stable sort is determined by the input and the order, so insertion sort
    stands for it: [x] goes in front of the first element that is not below
    it, hence in front of the later elements with an equal key. *)
Fixpoint insert_sorted (x : date_match) (l : list date_match)
  : list date_match :=
  match l with
  | [] => [x]
  | y :: l' => if dm_le x y then x :: l else y :: insert_sorted x l'
  end.

Fixpoint stable_sort (l : list date_match) : list date_match :=
  match l with
  | [] => []
  | x :: l' => insert_sorted x (stable_sort l')
  end.

(** [l.sort(key=..., reverse=True)]: as CPython does it, the list is
    reversed, sorted stably in ascending order, and reversed again, so that
    entries with equal keys keep their original order. *)
Definition sort_reverse (l : list date_match) : list date_match :=
  rev (stable_sort (rev l)).

(** [next((date for date, _, type_ in date_matches if type_ == t), None)] *)
Definition next_of_type (t : date_type) (l : list date_match)
  : option datetime :=
  option_map dm_date (find (fun c => date_type_eqb (dm_type c) t) l).

(** [a or b] on optional datetimes: a [datetime] is always truthy. *)
Definition py_or (a b : option datetime) : option datetime :=
  match a with Some _ => a | None => b end.

(** Lines 135-140 of [parse]: sort, select, store, return. *)
Definition select_dates (date_matches : list date_match)
  : PubdateExtractor * option datetime :=
  let date_matches := sort_reverse date_matches in
  let u := next_of_type updated date_matches in
  let p := next_of_type published date_matches in
  ({| pubdate := p; updatedate := u |}, py_or u p).

(* ================================================================== *)
(** ** What the extractor imports

    [parse] calls into modules that are outside this file.  They are taken
    as an interface; every definition and theorem below holds for any
    implementation of it.
    - [strict_date_search url] is [re.search(urls.STRICT_DATE_REGEX, url)]
      followed by [.group(0)].
    - [date_parser s] is [dateutil.parser.parse(s)] on a string, with its
      three possible outcomes: see [parser_outcome].
    - [get_ld_json_object], [get_tags], [get_metatags],
      [get_elements_by_attribs] and [get_attribute] are the functions of
      [newspaper.parsers]; [get_elements_by_attribs doc a v] is the call
      with [attribs={a: v}].
    - [PUBLISH_DATE_META_INFO] and [PUBLISH_DATE_TAGS] are the tables of
      [newspaper.extractors.defines].
    - [now] is [datetime.now()], read once per call. *)

(** What a call [date_parser(s)] does: it returns a [datetime]; or it raises
    [ValueError], [OverflowError], [AttributeError] or [TypeError] (or a
    subclass of these), which line 51 catches; or it raises an exception of
    another class [cls], which nothing in [parse] catches. *)
Inductive parser_outcome : Type :=
| Parsed (d : datetime)
| Caught
| Raises (cls : string).

Class Imports (Doc : Type) : Type := {
  strict_date_search : string -> option string;
  date_parser : string -> parser_outcome;
  get_ld_json_object : Doc -> list dict;
  get_tags : Doc -> string -> list element;
  get_metatags : Doc -> string -> list element;
  get_elements_by_attribs : Doc -> string -> string -> list element;
  get_attribute : element -> string -> option string;
  PUBLISH_DATE_META_INFO : list string;
  PUBLISH_DATE_TAGS : list publish_date_tag;
  now : datetime
}.

Definition UPDATED_DATE_META_INFO : list string :=
  [ "updated_time";
    "og:updated_time";
    "datemodified";
    "last-modified";
    "Last-Modified";
    "DC.date.modified";
    "article:modified_time";
    "modified_time";
    "modifiedDateTime";
    "dc.dcterms.modified";
    "lastmod";
    "eomportal-lastUpdate" ].

Section Extractor.

Context {Doc : Type} `{Imports Doc}.

(** [item in UPDATED_DATE_META_INFO] *)
Definition in_list (item : string) (l : list string) : bool :=
  existsb (String.eqb item) l.

Definition PUBLISHED_DATE_META_INFO : list string :=
  filter (fun item => negb (in_list item UPDATED_DATE_META_INFO))
         PUBLISH_DATE_META_INFO.

(** The local function [parse_date_str], lines 47-52.  A falsy argument
    falls through to the implicit [return None]; a truthy argument that is
    not a string makes [date_parser] raise [TypeError], which is caught; an
    exception that is not caught leaves the function. *)
Definition parse_date_str (date_str : pyobj) : result (option datetime) :=
  match date_str with
  | PyStr s =>
      if Str.is_empty s then Ok None
      else match date_parser s with
           | Parsed d => Ok (Some d)
           | Caught => Ok None
           | Raises cls => Raise (OtherError cls)
           end
  | _ => Ok None
  end.

(** *** Lines 54-60: the date in the URL *)
Definition url_date_matches (article_url : string)
  : result (list date_match) :=
  match strict_date_search article_url with
  | Some date_match_str =>
      datetime_obj <- parse_date_str (PyStr date_match_str) ;;
      Ok (match datetime_obj with
          | Some d => [(d, 10, published)]
          | None => []
          end)
  | None => Ok []
  end.

(** *** Lines 62-85: JSON-LD *)

(** One pass of the loop over
    [[("dateModified", "updated"), ("datePublished", "published")]]. *)
Definition graph_key_matches (item : dict) (date_key : string)
           (date_type : date_type) : result (list date_match) :=
  let date_str := dict_get_or_None date_key item in
  match date_str with
  | PyNone => Ok []                            (* continue *)
  | _ => datetime_obj <- parse_date_str date_str ;;
         Ok (match datetime_obj with
             | Some d => [(d, 10, date_type)]
             | None => []
             end)
  end.

(** The body of [for item in g]. *)
Definition graph_item_matches (item : pyobj) : result (list date_match) :=
  match item with
  | PyDict d =>
      for_each [("dateModified", updated); ("datePublished", published)]
               (fun kt => graph_key_matches d (fst kt) (snd kt))
  | _ => Ok []                                 (* not a dict: continue *)
  end.

(** The body of [for k in script_tag] in the [else] branch. *)
Definition flat_key_matches (script_tag : dict) (k : string)
  : result (list date_match) :=
  if in_list k ["dateModified"; "datePublished"; "dateCreated"] then
    let date_str := dict_get_or_None k script_tag in
    datetime_obj <- parse_date_str date_str ;;
    Ok (match datetime_obj with
        | Some d =>
            let date_type :=
              if String.eqb k "dateModified" then updated else published in
            [(d, 9, date_type)]
        | None => []
        end)
  else Ok [].

(** The body of [for script_tag in json_ld_scripts]. *)
Definition script_tag_matches (script_tag : dict)
  : result (list date_match) :=
  if dict_contains "@graph" script_tag then
    g <- py_iter (dict_get_or_None "@graph" script_tag) ;;
    for_each g graph_item_matches
  else
    for_each (map fst script_tag) (flat_key_matches script_tag).

Definition json_ld_matches (json_ld_scripts : list dict)
  : result (list date_match) :=
  for_each json_ld_scripts script_tag_matches.

(** *** Lines 87-98: [<time>] elements *)

(** [item.text and re.search(pattern, item.text, re.I)] *)
Definition text_search (alternatives : list string) (t : option string)
  : bool :=
  match t with
  | Some s => negb (Str.is_empty s) && re_search_I alternatives s
  | None => false
  end.

(** The pattern ["published|\bon:"] is not a raw string: its second
    alternative starts with a backspace character. *)
Definition PUBLISHED_TEXT_PATTERN : list string :=
  ["published"; String BACKSPACE "on:"].

(** Lines 93-98: the entry for a parsed date, by the text of the element. *)
Definition time_tag_entry (item : element) (datetime_obj : datetime)
  : date_match :=
  if text_search ["updated"; "modified"] (text item) then
    (datetime_obj, 8, updated)
  else if text_search PUBLISHED_TEXT_PATTERN (text item) then
    (datetime_obj, 7, published)
  else
    (datetime_obj, 5, unknown).

Definition time_tag_matches (item : element) : result (list date_match) :=
  match element_get item "datetime" with
  | Some date_str =>
      if Str.is_empty date_str then Ok []
      else
        datetime_obj <- parse_date_str (PyStr date_str) ;;
        Ok (match datetime_obj with
            | Some d => [time_tag_entry item d]
            | None => []
            end)
  | None => Ok []
  end.

(** *** Lines 100-133: meta tags and known attribute patterns *)

Definition candidates (doc : Doc) : list (element * string * date_type) :=
  flat_map (fun known_meta_info =>
              map (fun x => (x, "content", updated))
                  (get_metatags doc known_meta_info))
           UPDATED_DATE_META_INFO
  ++ flat_map (fun known_meta_info =>
                 map (fun x => (x, "content", published))
                     (get_metatags doc known_meta_info))
              PUBLISHED_DATE_META_INFO
  ++ flat_map (fun known_meta_tag =>
                 map (fun x => (x, pdt_content known_meta_tag, unknown))
                     (get_elements_by_attribs
                        doc (pdt_attribute known_meta_tag)
                        (pdt_value known_meta_tag)))
              PUBLISH_DATE_TAGS.

(** Lines 123-132. *)
Definition meta_score (meta_tag : element) (date_type : date_type)
           (datetime_obj : datetime) : Z :=
  let score := 6 in
  let score :=
    if String.eqb (Str.lower (tag meta_tag)) "meta" then score + 1
    else score in
  let score :=
    if date_type_eqb date_type updated then score + 2 else score in
  let days_diff := Calendar.days_between now datetime_obj in
  if days_diff <? 0 then score - 2
  else if 25 * 365 <? days_diff then score - 1
  else score.

(** The body of [for meta_tag, content_attr, date_type in candidates]. *)
Definition candidate_matches (c : element * string * date_type)
  : result (list date_match) :=
  let '(meta_tag, content_attr, date_type) := c in
  let date_str := of_option (get_attribute meta_tag content_attr) in
  datetime_obj <- parse_date_str date_str ;;
  Ok (match datetime_obj with
      | Some d => [(d, meta_score meta_tag date_type d, date_type)]
      | None => []
      end).

(** *** The whole of [parse] *)

(** The list [date_matches] as it stands on reaching line 135.  The four
    stages run in this order, and the first exception ends the call. *)
Definition harvest (article_url : string) (doc : Doc)
  : result (list date_match) :=
  date_matches <- url_date_matches article_url ;;
  ld <- json_ld_matches (get_ld_json_object doc) ;;
  let date_matches := date_matches ++ ld in
  tm <- for_each (get_tags doc "time") time_tag_matches ;;
  let date_matches := date_matches ++ tm in
  mt <- for_each (candidates doc) candidate_matches ;;
  let date_matches := date_matches ++ mt in
  Ok date_matches.

(** [parse] returns the new state of the extractor and the returned value,
    or raises, in which case the extractor is left as it was. *)
Definition parse (self : PubdateExtractor) (article_url : string)
           (doc : Doc) : result (PubdateExtractor * option datetime) :=
  date_matches <- harvest article_url doc ;;
  Ok (select_dates date_matches).

End Extractor.

(* ================================================================== *)
(** ** Predicates used in the statements *)

Definition ascending : date_match -> date_match -> Prop :=
  fun a b => dm_le a b = true.

Definition descending : date_match -> date_match -> Prop :=
  fun a b => dm_le b a = true.

Definition same_key (k : Z * bool) (c : date_match) : bool :=
  (fst (sort_key c) =? fst k) && Bool.eqb (snd (sort_key c)) (snd k).

(** [r] is the date of the first entry of type [t] in [s], or [None] when
    [s] has no entry of type [t]. *)
Definition first_of_type (t : date_type) (s : list date_match)
           (r : option datetime) : Prop :=
  match r with
  | Some d =>
      exists pre c post,
        s = pre ++ c :: post /\
        Forall (fun x => dm_type x <> t) pre /\
        dm_type c = t /\ dm_date c = d
  | None => Forall (fun x => dm_type x <> t) s
  end.

Definition not_unknown (c : date_match) : bool :=
  negb (date_type_eqb (dm_type c) unknown).


(** A structured-data object on which [for item in g] can run: its
    ["@graph"] value, when it has one, is a list, a dict or a string. *)
Definition graph_iterable (script_tag : dict) : bool :=
  match dict_get "@graph" script_tag with
  | Some PyNone | Some (PyBool _) | Some (PyNum _) => false
  | _ => true
  end.

Definition is_meta (e : element) : bool :=
  String.eqb (Str.lower (tag e)) "meta".

(* ------------------------------------------------------------------ *)
(** *** Raw values and the date parser

    The values the stages hand to [parse_date_str], and what the parser
    makes of them, stated on [date_parser] itself. *)

Section RawValues.

Context {Doc : Type} `{Imports Doc}.

(** The date the parser returns on a raw value: none for a value that is
    absent, not a string or empty, and none for a string on which the
    parser raises. *)
Definition parsed_date (v : pyobj) : option datetime :=
  match v with
  | PyStr s =>
      if Str.is_empty s then None
      else match date_parser s with Parsed d => Some d | _ => None end
  | _ => None
  end.


(** The raw value is a non-empty string on which the parser raises an
    exception that is not caught. *)
Definition escapes (v : pyobj) : bool :=
  match v with
  | PyStr s =>
      negb (Str.is_empty s) &&
      match date_parser s with Raises _ => true | _ => false end
  | _ => false
  end.

(** The date of [c] is what [date_parser] returned on some non-empty raw
    string. *)
Definition from_parsed_string (c : date_match) : Prop :=
  exists raw : string, raw <> "" /\ date_parser raw = Parsed (dm_date c).

(** The raw values read, stage by stage, in the order of the reads. *)
Definition url_reads (article_url : string) : list pyobj :=
  match strict_date_search article_url with
  | Some date_match_str => [PyStr date_match_str]
  | None => []
  end.

Definition item_reads (item : pyobj) : list pyobj :=
  match item with
  | PyDict d => [dict_get_or_None "dateModified" d;
                 dict_get_or_None "datePublished" d]
  | _ => []
  end.

Definition flat_key_reads (script_tag : dict) (k : string) : list pyobj :=
  if in_list k ["dateModified"; "datePublished"; "dateCreated"]
  then [dict_get_or_None k script_tag] else [].

Definition object_reads (script_tag : dict) : list pyobj :=
  match dict_get "@graph" script_tag with
  | Some g => match py_iter g with
              | Ok items => flat_map item_reads items
              | Raise _ => []
              end
  | None => flat_map (flat_key_reads script_tag) (map fst script_tag)
  end.

Definition time_read (item : element) : pyobj :=
  of_option (element_get item "datetime").

Definition candidate_read (c : element * string * date_type) : pyobj :=
  of_option (get_attribute (fst (fst c)) (snd (fst c))).

Definition raw_reads (article_url : string) (doc : Doc) : list pyobj :=
  url_reads article_url
  ++ flat_map object_reads (get_ld_json_object doc)
  ++ map time_read (get_tags doc "time")
  ++ map candidate_read (candidates doc).

(** The entries each stage appends when no exception interrupts it. *)
Definition url_entries (article_url : string) : list date_match :=
  match strict_date_search article_url with
  | Some date_match_str =>
      match parsed_date (PyStr date_match_str) with
      | Some d => [(d, 10, published)]
      | None => []
      end
  | None => []
  end.

Definition key_entries (d : dict) (k : string) (score : Z) (t : date_type)
  : list date_match :=
  match parsed_date (dict_get_or_None k d) with
  | Some datetime_obj => [(datetime_obj, score, t)]
  | None => []
  end.

Definition item_entries (item : pyobj) : list date_match :=
  match item with
  | PyDict d => key_entries d "dateModified" 10 updated
                ++ key_entries d "datePublished" 10 published
  | _ => []
  end.

Definition flat_key_entries (script_tag : dict) (k : string)
  : list date_match :=
  if String.eqb k "dateModified" then key_entries script_tag k 9 updated
  else if String.eqb k "datePublished" || String.eqb k "dateCreated"
       then key_entries script_tag k 9 published
       else [].

Definition object_entries (script_tag : dict) : list date_match :=
  match dict_get "@graph" script_tag with
  | Some g => match py_iter g with
              | Ok items => flat_map item_entries items
              | Raise _ => []
              end
  | None => flat_map (flat_key_entries script_tag) (map fst script_tag)
  end.

Definition time_entries (item : element) : list date_match :=
  match parsed_date (time_read item) with
  | Some d => [time_tag_entry item d]
  | None => []
  end.

Definition candidate_entries (c : element * string * date_type)
  : list date_match :=
  match parsed_date (candidate_read c) with
  | Some d => [(d, meta_score (fst (fst c)) (snd c) d, snd c)]
  | None => []
  end.

Definition late_entries (doc : Doc) : list date_match :=
  flat_map time_entries (get_tags doc "time")
  ++ flat_map candidate_entries (candidates doc).

(** Calendar-day comparisons with the day of the call. *)
Definition future_dated (d : datetime) : Prop :=
  Calendar.toordinal now < Calendar.toordinal d.

Definition past_dated (d : datetime) : Prop :=
  Calendar.toordinal d < Calendar.toordinal now.

(** More than [25 * 365] days before the day of the call. *)
Definition very_old (d : datetime) : Prop :=
  Calendar.toordinal now - Calendar.toordinal d > 25 * 365.

End RawValues.

(* ------------------------------------------------------------------ *)
(** *** The meta score as the specification words it

    These definitions follow the wording "strictly in the future relative
    to extraction time" and "more than 25 years in the past", for naive
    datetimes: instants are compared field by field, and 25 years are 25
    calendar years.  They are compared with [meta_score] below. *)

Definition datetime_fields (d : datetime) : list Z :=
  [year d; month d; day d; hour d; minute d; second d; microsecond d].

Fixpoint lex_lt (a b : list Z) : bool :=
  match a, b with
  | x :: a', y :: b' => (x <? y) || ((x =? y) && lex_lt a' b')
  | _, _ => false
  end.

(** [a] is a later instant than [b]. *)
Definition strictly_later (a b : datetime) : bool :=
  lex_lt (datetime_fields b) (datetime_fields a).

Definition add_years (n : Z) (d : datetime) : datetime :=
  mk_datetime (year d + n) (month d) (day d)
              (hour d) (minute d) (second d) (microsecond d) (tzinfo d).

(** [d] lies more than 25 calendar years before [n]. *)
Definition more_than_25_years_before (d n : datetime) : bool :=
  strictly_later n (add_years 25 d).

Definition stated_meta_score {Doc : Type} `{Imports Doc}
           (meta_tag : element) (ty : date_type) (d : datetime) : Z :=
  6 + (if is_meta meta_tag then 1 else 0)
    + (if date_type_eqb ty updated then 2 else 0)
    - (if strictly_later d now then 2 else 0)
    - (if more_than_25_years_before d now then 1 else 0).


(* ================================================================== *)
(** ** Further predicates *)

Definition is_type (t : date_type) (c : date_match) : bool :=
  date_type_eqb (dm_type c) t.

(** [r] is the date of the entry of type [t] that comes first in the list
    [l], as harvested, among those of the highest score; [None] when [l] has
    no entry of type [t]. *)
Definition first_best_of_type (t : date_type) (l : list date_match)
           (r : option datetime) : Prop :=
  match r with
  | Some d =>
      exists pre c post,
        l = pre ++ c :: post /\ dm_type c = t /\ dm_date c = d /\
        (forall x, In x pre -> dm_type x = t -> dm_score x < dm_score c) /\
        (forall x, In x post -> dm_type x = t -> dm_score x <= dm_score c)
  | None => forall x, In x l -> dm_type x <> t
  end.

(** The scores of all entries lie between [lo] and [hi]. *)
Definition scores_within (lo hi : Z) (l : list date_match) : Prop :=
  Forall (fun c => lo <= dm_score c <= hi) l.

(** The backspace character does not occur in [s]. *)
Fixpoint no_backspace (s : string) : bool :=
  match s with
  | EmptyString => true
  | String c s' => negb (Ascii.eqb c BACKSPACE) && no_backspace s'
  end.

(** The same imports, with an empty table [PUBLISH_DATE_TAGS]. *)
Definition without_publish_date_tags {Doc : Type} (I : Imports Doc)
  : Imports Doc :=
  {| strict_date_search := @strict_date_search Doc I;
     date_parser := @date_parser Doc I;
     get_ld_json_object := @get_ld_json_object Doc I;
     get_tags := @get_tags Doc I;
     get_metatags := @get_metatags Doc I;
     get_elements_by_attribs := @get_elements_by_attribs Doc I;
     get_attribute := @get_attribute Doc I;
     PUBLISH_DATE_META_INFO := @PUBLISH_DATE_META_INFO Doc I;
     PUBLISH_DATE_TAGS := [];
     now := @now Doc I |}.

(** No value of the list makes the parser raise an exception that is not
    caught. *)
Definition safe {Doc : Type} `{Imports Doc} (vs : list pyobj) : bool :=
  forallb (fun v => negb (escapes v)) vs.

(** The call [r] returns [entries] when [ok] holds and raises otherwise. *)
Definition outcome_is {A : Type} (r : result A) (ok : bool) (entries : A)
  : Prop :=
  if ok then r = Ok entries else exists e, r = Raise e.

Section Outcomes.

Context {Doc : Type} `{Imports Doc}.

(** A structured-data object that [script_tag_matches] gets through. *)
Definition object_ok (script_tag : dict) : bool :=
  graph_iterable script_tag && safe (object_reads script_tag).

(** The list that reaches the sort when nothing raises. *)
Definition harvest_entries (article_url : string) (doc : Doc)
  : list date_match :=
  ((url_entries article_url
      ++ flat_map object_entries (get_ld_json_object doc))
     ++ flat_map time_entries (get_tags doc "time"))
    ++ flat_map candidate_entries (candidates doc).

Definition harvest_ok (article_url : string) (doc : Doc) : bool :=
  safe (url_reads article_url)
  && (forallb object_ok (get_ld_json_object doc)
      && (forallb (fun x => negb (escapes (time_read x))) (get_tags doc "time")
          && forallb (fun x => negb (escapes (candidate_read x)))
                     (candidates doc))).

(** The condition under which [parse] returns: every ["@graph"] value can be
    iterated and the parser raises no uncaught exception on a value read. *)
Definition page_ok (article_url : string) (doc : Doc) : bool :=
  forallb graph_iterable (get_ld_json_object doc)
  && safe (raw_reads article_url doc).

End Outcomes.

(* ================================================================== *)
(** ** A sample environment

    A small implementation of [Imports], used for the worked examples: a
    page is the list of its JSON-LD objects and the list of its elements; the
    URL matcher and the date parser are the finite tables of the values the
    library functions take on the strings of the examples; any other string
    is one the parser rejects with [ValueError], except for [overlong_time],
    on which it raises [decimal.InvalidOperation]; the call takes place on
    2024-06-01 at noon. *)

Module Sample.

Record page : Type := mk_page {
  ld_json : list dict;
  elements : list element
}.

Definition has_attr (a v : string) (e : element) : bool :=
  match element_get e a with
  | Some v' => String.eqb v v'
  | None => false
  end.

Definition url_table : list (string * string) :=
  [ ("https://example.com/2023/04/15/headline", "2023/04/15/") ].

Fixpoint lookup {A} (k : string) (l : list (string * A)) : option A :=
  match l with
  | [] => None
  | (k', v) :: l' => if String.eqb k k' then Some v else lookup k l'
  end.

Definition date_table : list (string * datetime) :=
  [ ("2023/04/15/", ymd 2023 4 15);
    ("2024-01-02", ymd 2024 1 2);
    ("2023-12-01", ymd 2023 12 1);
    ("2023-11-30", ymd 2023 11 30);
    ("2025-06-01", ymd 2025 6 1);
    ("2023-06-01", ymd 2023 6 1);
    ("1990-01-01", ymd 1990 1 1);
    ("1999-06-07", ymd 1999 6 7);
    ("2024-06-01T23:30:00", mk_datetime 2024 6 1 23 30 0 0 None) ].

(** A time of day whose minutes field has thirty digits.  [dateutil] reads
    the field as a [Decimal] and takes its remainder modulo 1, which raises
    [decimal.InvalidOperation] for a number of more than 28 digits; that
    class is a subclass of [ArithmeticError] and of none of the four
    classes caught at line 51. *)
Definition overlong_time : string := "10:999999999999999999999999999999".

#[global] Instance imports : Imports page := {|
  strict_date_search := fun url => lookup url url_table;
  date_parser := fun s =>
    if String.eqb s overlong_time then Raises "decimal.InvalidOperation"
    else match lookup s date_table with
         | Some d => Parsed d
         | None => Caught
         end;
  get_ld_json_object := ld_json;
  get_tags := fun doc t => filter (fun e => String.eqb (tag e) t) (elements doc);
  get_metatags := fun doc v =>
    filter (fun e => String.eqb (tag e) "meta" &&
                     (has_attr "name" v e || has_attr "property" v e
                      || has_attr "itemprop" v e))
           (elements doc);
  get_elements_by_attribs := fun doc a v => filter (has_attr a v) (elements doc);
  get_attribute := element_get;
  PUBLISH_DATE_META_INFO :=
    ["article:published_time"; "og:updated_time"; "date"];
  PUBLISH_DATE_TAGS :=
    [ mk_publish_date_tag "itemprop" "datePublished" "datetime";
      mk_publish_date_tag "pubdate" "pubdate" "datetime" ];
  now := mk_datetime 2024 6 1 12 0 0 0 None
|}.

Definition fresh : PubdateExtractor :=
  {| pubdate := None; updatedate := None |}.

Definition empty_page : page := mk_page [] [].

Definition url_with_date : string :=
  "https://example.com/2023/04/15/headline".

Definition url_without_date : string := "https://example.com/headline".

(** [{"dateModified": "2024-01-02", "datePublished": "2023-12-01"}] *)
Definition flat_both : dict :=
  [ ("dateModified", PyStr "2024-01-02");
    ("datePublished", PyStr "2023-12-01") ].

(** [{"dateModified": "2024-01-02"}] *)
Definition flat_modified_only : dict :=
  [ ("dateModified", PyStr "2024-01-02") ].

(** [{"@graph": [{"@type": "Article", "dateModified": "2024-01-02",
                  "datePublished": "not a date"}, "stray"]}] *)
Definition graph_object : dict :=
  [ ("@graph",
     PyList [ PyDict [ ("@type", PyStr "Article");
                       ("dateModified", PyStr "2024-01-02");
                       ("datePublished", PyStr "not a date") ];
              PyStr "stray" ]) ].

(** [{"@graph": null}] *)
Definition graph_null : dict := [ ("@graph", PyNone) ].

(** [<time datetime="2024-01-02">Posted on: Jan 2</time>] *)
Definition time_posted_on : element :=
  mk_element "time" [("datetime", "2024-01-02")] (Some "Posted on: Jan 2").

(** [<time datetime="2023-12-01">Published Dec 1</time>] *)
Definition time_published : element :=
  mk_element "time" [("datetime", "2023-12-01")] (Some "Published Dec 1").

(** [<meta property="article:published_time" content=...>] *)
Definition meta_published (content : string) : element :=
  mk_element "meta"
             [("property", "article:published_time"); ("content", content)]
             None.

(** [<meta property="article:modified_time" content=...>] *)
Definition meta_modified (content : string) : element :=
  mk_element "meta"
             [("property", "article:modified_time"); ("content", content)]
             None.

(** [{"dateModified": "10:99...9", "datePublished": "2023-12-01"}] *)
Definition flat_overlong : dict :=
  [ ("dateModified", PyStr overlong_time);
    ("datePublished", PyStr "2023-12-01") ].

(** [{"dateModified": "not a date", "datePublished": "2023-12-01"}] *)
Definition flat_not_a_date : dict :=
  [ ("dateModified", PyStr "not a date");
    ("datePublished", PyStr "2023-12-01") ].

(** [<span itemprop="datePublished" datetime=...>], which only the table
    [PUBLISH_DATE_TAGS] matches. *)
Definition tagged_span (datetime_attr : string) : element :=
  mk_element "span"
             [("itemprop", "datePublished"); ("datetime", datetime_attr)]
             None.

(** A page with the flat JSON-LD object, a [<time>] element marked as
    published and a [meta] tag naming a modification time. *)
Definition busy_page : page :=
  mk_page [flat_both] [time_published; meta_modified "2023-11-30"].

End Sample.
(* ================================================================== *)
(** * Properties of the scorer / selector *)

Section SortFacts.

Local Ltac key_arith :=
  unfold dm_le, key_le in *;
  repeat match goal with
         | |- context [snd (sort_key ?c)] => destruct (snd (sort_key c))
         | H : context [snd (sort_key ?c)] |- _ => destruct (snd (sort_key c))
         end;
  simpl in *;
  rewrite ?orb_true_iff, ?orb_false_iff, ?andb_true_iff, ?andb_false_iff,
    ?Z.ltb_lt, ?Z.ltb_ge, ?Z.eqb_eq, ?Z.eqb_neq in *;
  try lia.

Lemma dm_le_refl a : dm_le a a = true.
Proof. key_arith. Qed.

Lemma dm_le_total a b : dm_le a b = false -> dm_le b a = true.
Proof. key_arith. Qed.

Lemma dm_le_trans a b c :
  dm_le a b = true -> dm_le b c = true -> dm_le a c = true.
Proof. key_arith. Qed.

Lemma dm_le_score a b : dm_le a b = true -> dm_score a <= dm_score b.
Proof. unfold dm_le, key_le, sort_key; simpl. key_arith. Qed.

Lemma dm_le_tie a b :
  dm_le a b = true -> dm_score a = dm_score b ->
  dm_type a = updated -> dm_type b = updated.
Proof.
  unfold dm_le, key_le, sort_key; simpl; intros Hle Hs Ha.
  rewrite Ha in Hle; simpl in Hle.
  destruct (dm_type b); trivial; simpl in Hle; key_arith.
Qed.

Lemma insert_sorted_perm x l : Permutation (insert_sorted x l) (x :: l).
Proof.
  induction l as [|y l IH]; simpl; [reflexivity|].
  destruct (dm_le x y); [reflexivity|].
  rewrite IH. apply perm_swap.
Qed.

Lemma stable_sort_perm l : Permutation (stable_sort l) l.
Proof.
  induction l as [|x l IH]; simpl; [reflexivity|].
  rewrite insert_sorted_perm. now constructor.
Qed.

Lemma insert_sorted_sorted x l :
  StronglySorted ascending l -> StronglySorted ascending (insert_sorted x l).
Proof.
  induction 1 as [|y l Hs IH Hy]; simpl.
  - repeat constructor.
  - destruct (dm_le x y) eqn:E.
    + constructor; [now constructor|].
      constructor; [exact E|].
      eapply Forall_impl; [|exact Hy].
      intros z Hz. eapply dm_le_trans; [exact E|exact Hz].
    + constructor; [exact IH|].
      eapply Permutation_Forall; [symmetry; apply insert_sorted_perm|].
      constructor; [now apply dm_le_total|exact Hy].
Qed.

Lemma stable_sort_sorted l : StronglySorted ascending (stable_sort l).
Proof.
  induction l; simpl; [constructor|now apply insert_sorted_sorted].
Qed.

Lemma StronglySorted_app_inv {A} (R : A -> A -> Prop) l1 l2 :
  StronglySorted R (l1 ++ l2) ->
  StronglySorted R l1 /\ StronglySorted R l2 /\
  (forall a b, In a l1 -> In b l2 -> R a b).
Proof.
  induction l1 as [|x l1 IH]; simpl; intros Hs.
  - repeat split; [constructor|exact Hs|intros ? ? []].
  - inversion Hs as [|? ? Hs' Hx]; subst.
    destruct (IH Hs') as (H1 & H2 & H3).
    rewrite Forall_app in Hx. destruct Hx as [Hx1 Hx2].
    repeat split; [now constructor|exact H2|].
    intros a b [->|Ha] Hb.
    + rewrite Forall_forall in Hx2. now apply Hx2.
    + now apply H3.
Qed.

Lemma StronglySorted_app {A} (R : A -> A -> Prop) l1 l2 :
  StronglySorted R l1 -> StronglySorted R l2 ->
  (forall a b, In a l1 -> In b l2 -> R a b) ->
  StronglySorted R (l1 ++ l2).
Proof.
  induction 1 as [|x l1 Hs IH Hx]; simpl; intros H2 H12; [exact H2|].
  constructor.
  - apply IH; [exact H2|]. intros a b Ha Hb. apply H12; [now right|exact Hb].
  - rewrite Forall_app. split; [exact Hx|].
    rewrite Forall_forall. intros b Hb. apply H12; [now left|exact Hb].
Qed.

Lemma StronglySorted_rev l :
  StronglySorted ascending l -> StronglySorted descending (rev l).
Proof.
  induction 1 as [|x l Hs IH Hx]; simpl; [constructor|].
  apply StronglySorted_app; [exact IH|repeat constructor|].
  intros a b Ha [<-|[]]. apply in_rev in Ha.
  rewrite Forall_forall in Hx. now apply Hx.
Qed.

Lemma sort_reverse_perm l : Permutation (sort_reverse l) l.
Proof.
  unfold sort_reverse.
  rewrite <- Permutation_rev, stable_sort_perm, <- Permutation_rev.
  reflexivity.
Qed.

Lemma sort_reverse_sorted l : StronglySorted descending (sort_reverse l).
Proof. apply StronglySorted_rev, stable_sort_sorted. Qed.

(** Anything in front of something else in the sorted list has a key that
    is at least as large. *)
Lemma sort_reverse_order l pre a mid b post :
  sort_reverse l = pre ++ a :: mid ++ b :: post -> dm_le b a = true.
Proof.
  intros E. pose proof (sort_reverse_sorted l) as Hs. rewrite E in Hs.
  apply StronglySorted_app_inv in Hs. destruct Hs as (_ & Hs & _).
  inversion Hs as [|? ? _ Ha]; subst.
  rewrite Forall_forall in Ha. apply Ha.
  apply in_or_app. right. now left.
Qed.

(** *** Filtering commutes with the sort *)

Lemma insert_sorted_front x l :
  Forall (ascending x) l -> insert_sorted x l = x :: l.
Proof.
  destruct 1 as [|y l Hy _]; simpl; [reflexivity|].
  unfold ascending in Hy. now rewrite Hy.
Qed.

Lemma filter_insert_sorted (p : date_match -> bool) x l :
  StronglySorted ascending l ->
  filter p (insert_sorted x l) =
  if p x then insert_sorted x (filter p l) else filter p l.
Proof.
  induction 1 as [|y l Hs IH Hy]; simpl.
  - now destruct (p x).
  - destruct (dm_le x y) eqn:E; simpl.
    + destruct (p x) eqn:Px; [|reflexivity].
      symmetry. apply insert_sorted_front.
      assert (Hall : Forall (ascending x) (y :: l)).
      { constructor; [exact E|].
        eapply Forall_impl; [|exact Hy].
        intros z Hz. eapply dm_le_trans; [exact E|exact Hz]. }
      rewrite Forall_forall in *. intros z Hz.
      apply Hall. change (In z (filter p (y :: l))) in Hz.
      apply filter_In in Hz. tauto.
    + rewrite IH. destruct (p y) eqn:Py, (p x) eqn:Px; simpl;
        rewrite ?E; reflexivity.
Qed.

Lemma filter_stable_sort p l :
  filter p (stable_sort l) = stable_sort (filter p l).
Proof.
  induction l as [|x l IH]; simpl; [reflexivity|].
  rewrite filter_insert_sorted by apply stable_sort_sorted.
  rewrite IH. now destruct (p x).
Qed.

Lemma filter_sort_reverse p l :
  filter p (sort_reverse l) = sort_reverse (filter p l).
Proof.
  unfold sort_reverse.
  rewrite filter_rev, filter_stable_sort, filter_rev. reflexivity.
Qed.

(** *** Stability: entries with equal keys are not reordered *)

Lemma stable_sort_same_key l :
  (forall a b, In a l -> In b l -> dm_le a b = true) -> stable_sort l = l.
Proof.
  induction l as [|x l IH]; simpl; intros Hall; [reflexivity|].
  rewrite IH by (intros; apply Hall; now right).
  apply insert_sorted_front. rewrite Forall_forall.
  intros y Hy. apply Hall; [now left|now right].
Qed.

Lemma sort_reverse_stable k l :
  filter (same_key k) (sort_reverse l) = filter (same_key k) l.
Proof.
  rewrite filter_sort_reverse. unfold sort_reverse.
  rewrite stable_sort_same_key; [apply rev_involutive|].
  intros a b Ha Hb. apply in_rev in Ha, Hb.
  apply filter_In in Ha, Hb. destruct Ha as [_ Ha], Hb as [_ Hb].
  unfold same_key in *. apply andb_true_iff in Ha, Hb.
  destruct Ha as [Ha1 Ha2], Hb as [Hb1 Hb2].
  apply Z.eqb_eq in Ha1, Hb1. apply eqb_prop in Ha2, Hb2.
  unfold dm_le, key_le. rewrite Ha1, Hb1, Ha2, Hb2.
  rewrite Z.eqb_refl. destruct (snd k); simpl; apply orb_true_r.
Qed.

End SortFacts.

Lemma date_type_eqb_eq a b : date_type_eqb a b = true <-> a = b.
Proof. destruct a, b; simpl; split; congruence. Qed.

Lemma date_type_eqb_neq a b : date_type_eqb a b = false <-> a <> b.
Proof. destruct a, b; simpl; split; congruence. Qed.

Lemma next_of_type_first t s : first_of_type t s (next_of_type t s).
Proof.
  unfold next_of_type.
  induction s as [|x s IH]; simpl; [constructor|].
  destruct (date_type_eqb (dm_type x) t) eqn:E; simpl.
  - exists [], x, s. repeat split; [constructor|now apply date_type_eqb_eq].
  - apply date_type_eqb_neq in E.
    destruct (find _ s) as [c|]; simpl in *.
    + destruct IH as (pre & c' & post & -> & Hpre & Hc & Hd).
      exists (x :: pre), c', post. repeat split; trivial. now constructor.
    + now constructor.
Qed.

Lemma next_of_type_filter t p l :
  (forall c, dm_type c = t -> p c = true) ->
  next_of_type t (filter p l) = next_of_type t l.
Proof.
  intros Hp. unfold next_of_type. f_equal.
  induction l as [|x l IH]; simpl; [reflexivity|].
  destruct (date_type_eqb (dm_type x) t) eqn:E.
  - rewrite (Hp x) by now apply date_type_eqb_eq. simpl. now rewrite E.
  - destruct (p x); simpl; rewrite ?E; exact IH.
Qed.

(** C1.  The selector sorts the candidate list by [(score, kind = Updated)]
    in descending order, the score being the primary key: the sorted list is
    a rearrangement of the input in which a candidate never precedes one of
    a larger score, and among two candidates of equal score a non-Updated
    one never precedes an Updated one.  The updated result is the date of
    the first Updated candidate of the sorted list and the published result
    the date of the first Published candidate; each is absent exactly when
    the list has no candidate of that kind, so that an Unknown candidate is
    never the one selected. *)
Theorem C1_sort_and_select (date_matches : list date_match) :
  let sorted := sort_reverse date_matches in
  let self := fst (select_dates date_matches) in
  Permutation sorted date_matches /\
  StronglySorted (fun a b => key_le (sort_key b) (sort_key a) = true) sorted /\
  (forall pre a mid b post,
      sorted = pre ++ a :: mid ++ b :: post ->
      dm_score b <= dm_score a /\
      (dm_score a = dm_score b -> dm_type b = updated -> dm_type a = updated)) /\
  first_of_type updated sorted (updatedate self) /\
  first_of_type published sorted (pubdate self) /\
  (updatedate self = None <->
   forall c, In c date_matches -> dm_type c <> updated) /\
  (pubdate self = None <->
   forall c, In c date_matches -> dm_type c <> published).
Proof.
  cbv zeta. unfold select_dates; simpl.
  assert (Habsent : forall t,
             next_of_type t (sort_reverse date_matches) = None <->
             forall c, In c date_matches -> dm_type c <> t).
  { intros t. pose proof (next_of_type_first t (sort_reverse date_matches)) as F.
    split.
    - intros E c Hc. rewrite E in F. simpl in F.
      rewrite Forall_forall in F. apply F.
      eapply Permutation_in; [symmetry; apply sort_reverse_perm|exact Hc].
    - intros Hno. destruct (next_of_type t _) as [d|]; [|reflexivity].
      destruct F as (pre & c & post & E & _ & Hc & _).
      exfalso. apply (Hno c); [|exact Hc].
      eapply Permutation_in; [apply sort_reverse_perm|].
      rewrite E. apply in_or_app. right. now left. }
  repeat split.
  - apply sort_reverse_perm.
  - apply sort_reverse_sorted.
  - apply dm_le_score. eapply sort_reverse_order; eassumption.
  - intros Hs Hb. eapply dm_le_tie; [|symmetry; exact Hs|exact Hb].
    eapply sort_reverse_order; eassumption.
  - apply next_of_type_first.
  - apply next_of_type_first.
  - apply Habsent.
  - apply Habsent.
  - apply Habsent.
  - apply Habsent.
Qed.

(** C10.  Dropping every Unknown candidate from the list before it is sorted
    changes neither of the two selected dates, nor the returned value. *)
Theorem C10_unknown_irrelevant (date_matches : list date_match) :
  select_dates (filter not_unknown date_matches) = select_dates date_matches.
Proof.
  unfold select_dates.
  rewrite <- filter_sort_reverse.
  rewrite !next_of_type_filter; [reflexivity| |];
    intros c Hc; unfold not_unknown; now rewrite Hc.
Qed.


(* ================================================================== *)
(** * Properties of the harvesting stages *)

Section HarvestFacts.

Context {Doc : Type} `{Imports Doc}.

Lemma is_empty_false (s : string) : Str.is_empty s = false <-> s <> "".
Proof. destruct s; simpl; split; congruence. Qed.

Lemma parsed_date_Some (v : pyobj) (t : datetime) :
  parsed_date v = Some t <->
  exists s, v = PyStr s /\ s <> "" /\ date_parser s = Parsed t.
Proof.
  split.
  - destruct v; simpl; try discriminate.
    destruct (Str.is_empty s) eqn:E; [discriminate|].
    destruct (date_parser s) eqn:P; try discriminate.
    intros [= ->]. exists s. rewrite <- is_empty_false. auto.
  - intros (s & -> & Hs & Hp). simpl.
    apply is_empty_false in Hs. now rewrite Hs, Hp.
Qed.

Lemma parsed_date_parsed (v : pyobj) (t : datetime) (score : Z)
      (ty : date_type) :
  parsed_date v = Some t -> from_parsed_string (t, score, ty).
Proof.
  intros Hp. apply parsed_date_Some in Hp.
  destruct Hp as (s & _ & Hs & Hp). now exists s.
Qed.

(** *** [parse_date_str] against the parser *)

Lemma parse_date_str_outcome (v : pyobj) :
  outcome_is (parse_date_str v) (negb (escapes v)) (parsed_date v).
Proof.
  unfold outcome_is, parse_date_str, escapes, parsed_date.
  destruct v; simpl; try reflexivity.
  destruct (Str.is_empty s); simpl; [reflexivity|].
  destruct (date_parser s); simpl; eauto.
Qed.

Lemma parse_date_str_Ok (v : pyobj) (o : option datetime) :
  parse_date_str v = Ok o -> o = parsed_date v /\ escapes v = false.
Proof.
  pose proof (parse_date_str_outcome v) as Ho. unfold outcome_is in Ho.
  destruct (escapes v); simpl in Ho.
  - destruct Ho as [e ->]. discriminate.
  - rewrite Ho. intros [= <-]. auto.
Qed.

Lemma parse_date_str_Some (v : pyobj) (t : datetime) :
  parse_date_str v = Ok (Some t) <->
  exists s, v = PyStr s /\ s <> "" /\ date_parser s = Parsed t.
Proof.
  rewrite <- parsed_date_Some. split.
  - intros Hp. apply parse_date_str_Ok in Hp. now destruct Hp as [<- _].
  - intros Hp. pose proof (parse_date_str_outcome v) as Ho.
    unfold outcome_is in Ho.
    assert (E : escapes v = false).
    { apply parsed_date_Some in Hp. destruct Hp as (s & -> & Hs & Hp').
      simpl. now rewrite Hp', andb_false_r. }
    rewrite E in Ho. simpl in Ho. now rewrite Ho, Hp.
Qed.

(** *** Outcomes compose *)

Lemma outcome_Ok {A} (r : result A) (ok : bool) (x y : A) :
  outcome_is r ok x -> r = Ok y -> ok = true /\ y = x.
Proof.
  unfold outcome_is. destruct ok.
  - intros -> [= ->]. auto.
  - intros [e ->]. discriminate.
Qed.

Lemma outcome_returns {A} (r : result A) (ok : bool) (x : A) :
  outcome_is r ok x -> ok = true -> r = Ok x.
Proof. unfold outcome_is. now intros Ho ->. Qed.

Lemma outcome_raises {A} (r : result A) (ok : bool) (x : A) :
  outcome_is r ok x -> ok = false -> exists e, r = Raise e.
Proof. unfold outcome_is. now intros Ho ->. Qed.

Lemma outcome_bind {A B} (r : result A) (k : A -> result B)
      (ok1 ok2 : bool) (x : A) (y : B) :
  outcome_is r ok1 x -> outcome_is (k x) ok2 y ->
  outcome_is (bind r k) (ok1 && ok2) y.
Proof.
  unfold outcome_is. destruct ok1; simpl.
  - intros ->. simpl. trivial.
  - intros [e ->] _. simpl. eauto.
Qed.

Lemma outcome_for_each {A B} (body : A -> result (list B))
      (ok : A -> bool) (f : A -> list B) (xs : list A) :
  (forall x, outcome_is (body x) (ok x) (f x)) ->
  outcome_is (for_each xs body) (forallb ok xs) (flat_map f xs).
Proof.
  intros Hb. induction xs as [|x xs IH]; simpl; [reflexivity|].
  eapply outcome_bind; [apply Hb|].
  rewrite <- (andb_true_r (forallb ok xs)).
  eapply outcome_bind; [exact IH|]. reflexivity.
Qed.

Lemma safe_app (a b : list pyobj) : safe (a ++ b) = safe a && safe b.
Proof. apply forallb_app. Qed.

Lemma safe_flat_map {A} (f : A -> list pyobj) (xs : list A) :
  safe (flat_map f xs) = forallb (fun x => safe (f x)) xs.
Proof.
  induction xs as [|x xs IH]; simpl; [reflexivity|].
  now rewrite safe_app, IH.
Qed.

Lemma safe_map {A} (f : A -> pyobj) (xs : list A) :
  safe (map f xs) = forallb (fun x => negb (escapes (f x))) xs.
Proof.
  unfold safe. induction xs as [|x xs IH]; simpl; [reflexivity|].
  now rewrite IH.
Qed.

Lemma forallb_andb {A} (p q : A -> bool) (xs : list A) :
  forallb (fun x => p x && q x) xs = forallb p xs && forallb q xs.
Proof.
  induction xs as [|x xs IH]; simpl; [reflexivity|].
  rewrite IH. destruct (p x), (q x), (forallb p xs); reflexivity.
Qed.

(** *** The outcome of each stage *)

Lemma url_date_matches_outcome (article_url : string) :
  outcome_is (url_date_matches article_url)
             (safe (url_reads article_url)) (url_entries article_url).
Proof.
  unfold url_date_matches, url_reads, url_entries.
  destruct (strict_date_search article_url) as [m|]; [|reflexivity].
  unfold safe. simpl forallb. rewrite andb_true_r.
  rewrite <- (andb_true_r (negb _)).
  eapply outcome_bind; [apply parse_date_str_outcome|reflexivity].
Qed.

Lemma graph_key_matches_outcome (item : dict) (k : string) (t : date_type) :
  outcome_is (graph_key_matches item k t)
             (negb (escapes (dict_get_or_None k item)))
             (key_entries item k 10 t).
Proof.
  unfold graph_key_matches, key_entries.
  pose proof (parse_date_str_outcome (dict_get_or_None k item)) as Ho.
  destruct (dict_get_or_None k item);
    try (rewrite <- (andb_true_r (negb _));
         eapply outcome_bind; [exact Ho|reflexivity]).
  reflexivity.
Qed.

Lemma graph_item_matches_outcome (item : pyobj) :
  outcome_is (graph_item_matches item) (safe (item_reads item))
             (item_entries item).
Proof.
  destruct item; try reflexivity.
  unfold graph_item_matches, item_reads, item_entries, safe.
  cbn [for_each forallb fst snd].
  eapply outcome_bind; [apply graph_key_matches_outcome|].
  eapply outcome_bind.
  - rewrite <- (andb_true_r (negb _)).
    eapply outcome_bind; [apply graph_key_matches_outcome|reflexivity].
  - rewrite app_nil_r. reflexivity.
Qed.

Lemma flat_key_matches_outcome (script_tag : dict) (k : string) :
  outcome_is (flat_key_matches script_tag k)
             (safe (flat_key_reads script_tag k))
             (flat_key_entries script_tag k).
Proof.
  unfold flat_key_matches, flat_key_reads, flat_key_entries, in_list.
  cbn [existsb]. rewrite orb_false_r.
  destruct (String.eqb k "dateModified") eqn:E1; cbn [orb].
  - unfold safe. cbn [forallb]. rewrite andb_true_r.
    rewrite <- (andb_true_r (negb _)).
    eapply outcome_bind; [apply parse_date_str_outcome|].
    unfold key_entries. reflexivity.
  - destruct (String.eqb k "datePublished" || String.eqb k "dateCreated");
      [|reflexivity].
    unfold safe. cbn [forallb]. rewrite andb_true_r.
    rewrite <- (andb_true_r (negb _)).
    eapply outcome_bind; [apply parse_date_str_outcome|].
    unfold key_entries. reflexivity.
Qed.

Lemma script_tag_matches_outcome (script_tag : dict) :
  outcome_is (script_tag_matches script_tag)
             (graph_iterable script_tag && safe (object_reads script_tag))
             (object_entries script_tag).
Proof.
  unfold script_tag_matches, graph_iterable, object_reads, object_entries,
    dict_contains, dict_get_or_None.
  destruct (dict_get "@graph" script_tag) as [g|].
  - destruct g; simpl py_iter; cbn [andb bind];
      try (exists TypeError; reflexivity);
      rewrite safe_flat_map;
      apply outcome_for_each, graph_item_matches_outcome.
  - cbn [andb]. rewrite safe_flat_map.
    apply outcome_for_each, flat_key_matches_outcome.
Qed.

Lemma json_ld_matches_outcome (scripts : list dict) :
  outcome_is (json_ld_matches scripts) (forallb object_ok scripts)
             (flat_map object_entries scripts).
Proof. apply outcome_for_each, script_tag_matches_outcome. Qed.

Lemma time_tag_matches_outcome (item : element) :
  outcome_is (time_tag_matches item) (negb (escapes (time_read item)))
             (time_entries item).
Proof.
  unfold time_tag_matches, time_entries, time_read.
  destruct (element_get item "datetime") as [s|]; [|reflexivity].
  simpl of_option.
  destruct (Str.is_empty s) eqn:E.
  - simpl. rewrite E. reflexivity.
  - rewrite <- (andb_true_r (negb _)).
    eapply outcome_bind; [apply parse_date_str_outcome|reflexivity].
Qed.

Lemma candidate_matches_outcome (c : element * string * date_type) :
  outcome_is (candidate_matches c) (negb (escapes (candidate_read c)))
             (candidate_entries c).
Proof.
  destruct c as [[meta_tag content_attr] ty].
  unfold candidate_matches, candidate_entries, candidate_read.
  cbn [fst snd].
  rewrite <- (andb_true_r (negb _)).
  eapply outcome_bind; [apply parse_date_str_outcome|reflexivity].
Qed.

Lemma harvest_outcome (article_url : string) (doc : Doc) :
  outcome_is (harvest article_url doc) (harvest_ok article_url doc)
             (harvest_entries article_url doc).
Proof.
  unfold harvest, harvest_ok, harvest_entries.
  eapply outcome_bind; [apply url_date_matches_outcome|].
  eapply outcome_bind; [apply json_ld_matches_outcome|].
  eapply outcome_bind;
    [apply outcome_for_each, time_tag_matches_outcome|].
  rewrite <- (andb_true_r (forallb _ (candidates doc))).
  eapply outcome_bind;
    [apply outcome_for_each, candidate_matches_outcome|].
  reflexivity.
Qed.

Lemma harvest_ok_page_ok (article_url : string) (doc : Doc) :
  harvest_ok article_url doc = page_ok article_url doc.
Proof.
  unfold harvest_ok, page_ok, raw_reads, object_ok.
  rewrite !safe_app, safe_flat_map, !safe_map, forallb_andb.
  destruct (safe (url_reads article_url)),
    (forallb graph_iterable (get_ld_json_object doc)),
    (forallb (fun x => safe (object_reads x)) (get_ld_json_object doc)),
    (forallb (fun x => negb (escapes (time_read x))) (get_tags doc "time")),
    (forallb (fun x => negb (escapes (candidate_read x))) (candidates doc));
    reflexivity.
Qed.

Lemma harvest_Ok (article_url : string) (doc : Doc) (l : list date_match) :
  harvest article_url doc = Ok l ->
  page_ok article_url doc = true /\ l = harvest_entries article_url doc.
Proof.
  intros Hh. rewrite <- harvest_ok_page_ok.
  eapply outcome_Ok; [apply harvest_outcome|exact Hh].
Qed.

Lemma parse_Ok (self : PubdateExtractor) (article_url : string) (doc : Doc)
      (r : PubdateExtractor * option datetime) :
  parse self article_url doc = Ok r ->
  harvest article_url doc = Ok (harvest_entries article_url doc) /\
  r = select_dates (harvest_entries article_url doc).
Proof.
  unfold parse.
  destruct (harvest article_url doc) as [l|] eqn:Hh; simpl; [|discriminate].
  intros [= <-]. apply harvest_Ok in Hh. destruct Hh as [_ ->]. auto.
Qed.

End HarvestFacts.


(* ================================================================== *)
(** * The harvesting stages, one by one *)

Section Stages.

Context {Doc : Type} `{Imports Doc}.





(** *** The dates of the entries are the parsed values read *)






Lemma time_tag_entry_date (item : element) (d : datetime) :
  dm_date (time_tag_entry item d) = d.
Proof.
  unfold time_tag_entry.
  destruct (text_search _ _); [reflexivity|].
  destruct (text_search _ _); reflexivity.
Qed.





(** C7.  When the strict date pattern matches the URL and the matched
    text parses, the URL stage yields exactly one entry, of type
    [published] and score 10; when the other three stages then return
    without an entry, [parse] returns with the published result equal to
    that date and the updated result absent.  When there is no match, or
    the parser rejects the matched text, the URL stage yields nothing and
    does not raise: the call goes on, and its outcome is that of the three
    later stages alone. *)
Theorem C7_url_date (self : PubdateExtractor) (article_url : string)
        (doc : Doc) :
  (forall m t,
      strict_date_search article_url = Some m ->
      parse_date_str (PyStr m) = Ok (Some t) ->
      url_date_matches article_url = Ok [(t, 10, published)] /\
      (json_ld_matches (get_ld_json_object doc) = Ok [] ->
       for_each (get_tags doc "time") time_tag_matches = Ok [] ->
       for_each (candidates doc) candidate_matches = Ok [] ->
       parse self article_url doc =
       Ok ({| pubdate := Some t; updatedate := None |}, Some t))) /\
  (strict_date_search article_url = None \/
   (exists m, strict_date_search article_url = Some m /\
              parse_date_str (PyStr m) = Ok None) ->
   url_date_matches article_url = Ok [] /\
   parse self article_url doc =
   (ld <- json_ld_matches (get_ld_json_object doc) ;;
    tm <- for_each (get_tags doc "time") time_tag_matches ;;
    mt <- for_each (candidates doc) candidate_matches ;;
    Ok (select_dates ((ld ++ tm) ++ mt)))).
Proof.
  split.
  - intros m t Hm Hp.
    assert (Hu : url_date_matches article_url = Ok [(t, 10, published)]).
    { unfold url_date_matches. now rewrite Hm, Hp. }
    split; [exact Hu|].
    intros Hld Htime Hmeta. unfold parse, harvest.
    rewrite Hu, Hld, Htime, Hmeta. reflexivity.
  - intros Hno.
    assert (Hu : url_date_matches article_url = Ok []).
    { unfold url_date_matches.
      destruct Hno as [->|(m & -> & ->)]; reflexivity. }
    split; [exact Hu|].
    unfold parse, harvest. rewrite Hu. simpl.
    destruct (json_ld_matches (get_ld_json_object doc)); simpl;
      [|reflexivity].
    destruct (for_each (get_tags doc "time") time_tag_matches); simpl;
      [|reflexivity].
    destruct (for_each (candidates doc) candidate_matches); reflexivity.
Qed.

End Stages.


(* ================================================================== *)
(** * Scores of the meta stage, and the value [parse] returns *)

Section Scores.

Context {Doc : Type} `{Imports Doc}.

Lemma meta_score_sum (meta_tag : element) (ty : date_type) (t : datetime) :
  let days_diff := Calendar.days_between now t in
  meta_score meta_tag ty t =
  6 + (if is_meta meta_tag then 1 else 0)
    + (if date_type_eqb ty updated then 2 else 0)
    - (if days_diff <? 0 then 2 else 0)
    - (if 25 * 365 <? days_diff then 1 else 0).
Proof.
  unfold meta_score, is_meta. cbv zeta.
  destruct (String.eqb _ "meta"), (date_type_eqb ty updated);
    destruct (Z.ltb_spec (Calendar.days_between now t) 0);
    destruct (Z.ltb_spec (25 * 365) (Calendar.days_between now t)); lia.
Qed.

(** C4, as amended.  An entry of the meta stage whose content attribute
    parses gets the score 6, plus 1 when the tag of the element is [meta],
    plus 2 when its type is [updated], minus 2 when its calendar day is
    after the calendar day of the call, minus 1 when its calendar day is
    more than [25 * 365] days before the calendar day of the call, all of
    these added up.  A future-dated entry scores exactly 2 less than the
    otherwise identical past-dated entry, that is, the one with the same
    element and type whose date lies in the past and draws no adjustment
    of its own. *)
Theorem C4_meta_score (meta_tag : element) (content_attr : string)
        (ty : date_type) (t : datetime) :
  parse_date_str (of_option (get_attribute meta_tag content_attr))
  = Ok (Some t) ->
  let days_diff := Calendar.days_between now t in
  candidate_matches (meta_tag, content_attr, ty) =
  Ok [(t,
       6 + (if is_meta meta_tag then 1 else 0)
         + (if date_type_eqb ty updated then 2 else 0)
         - (if days_diff <? 0 then 2 else 0)
         - (if 25 * 365 <? days_diff then 1 else 0),
       ty)] /\
  (forall t',
      future_dated t -> past_dated t' -> ~ very_old t' ->
      meta_score meta_tag ty t = meta_score meta_tag ty t' - 2).
Proof.
  intros Hp. cbv zeta. split.
  - unfold candidate_matches. rewrite Hp. cbn [bind].
    rewrite meta_score_sum. reflexivity.
  - unfold future_dated, past_dated, very_old. intros t' Hf Hpast Hold.
    rewrite !meta_score_sum. cbv zeta. unfold Calendar.days_between.
    repeat match goal with
           | |- context [?a <? ?b] => destruct (Z.ltb_spec a b)
           end; lia.
Qed.

(** C3.  When [parse] returns, it has stored the first [updated] and the
    first [published] entry of the sorted list in the two fields of the
    extractor, and the value it returns is the updated one when there is
    one and the published one otherwise; when the stages found no entry,
    the two fields and the returned value are all absent. *)
Theorem C3_returned_value (self : PubdateExtractor) (article_url : string)
        (doc : Doc) (self' : PubdateExtractor)
        (returned : option datetime) :
  parse self article_url doc = Ok (self', returned) ->
  exists date_matches,
    harvest article_url doc = Ok date_matches /\
    first_of_type updated (sort_reverse date_matches) (updatedate self') /\
    first_of_type published (sort_reverse date_matches) (pubdate self') /\
    returned = match updatedate self' with
               | Some u => Some u
               | None => pubdate self'
               end /\
    (date_matches = [] ->
     updatedate self' = None /\ pubdate self' = None /\ returned = None).
Proof.
  unfold parse.
  destruct (harvest article_url doc) as [l|] eqn:Hh; simpl; [|discriminate].
  intros [= <- <-]. exists l. split; [reflexivity|]. simpl.
  split; [apply next_of_type_first|].
  split; [apply next_of_type_first|].
  split; [unfold py_or; now destruct (next_of_type updated _)|].
  intros ->. repeat split.
Qed.

End Scores.


(* ================================================================== *)
(** * Worked examples in the sample environment *)

Section Examples.

Import Sample.

(** C2.  [parse] returns one optional timestamp and not the pair of the
    two results.  On a page whose only evidence is the flat object with
    [dateModified] 2024-01-02 and [datePublished] 2023-12-01 the call
    returns 2024-01-02 alone, and it returns the same value on the page
    that has [dateModified] only, although the published results of the
    two calls differ.  Both results stay readable in the fields of the
    extractor. *)
Theorem C2_returns_one_timestamp :
  parse fresh url_without_date (mk_page [flat_both] []) =
  Ok ({| pubdate := Some (ymd 2023 12 1);
         updatedate := Some (ymd 2024 1 2) |},
      Some (ymd 2024 1 2)) /\
  parse fresh url_without_date (mk_page [flat_modified_only] []) =
  Ok ({| pubdate := None; updatedate := Some (ymd 2024 1 2) |},
      Some (ymd 2024 1 2)).
Proof. split; reflexivity. Qed.

(** C5.  A [<time>] element whose text is "Posted on: Jan 2" and whose
    [datetime] attribute parses is classified [unknown] with score 5: the
    second alternative of the pattern asks for a backspace character in
    front of "on:".  The element whose text contains "Published" is
    classified [published] with score 7. *)
Theorem C5_on_marker_is_unknown :
  time_tag_matches time_posted_on = Ok [(ymd 2024 1 2, 5, unknown)] /\
  time_tag_matches time_published = Ok [(ymd 2023 12 1, 7, published)].
Proof. split; reflexivity. Qed.

(** C8.  A page whose JSON-LD is the object [{"@graph": null}] makes
    [parse] raise [TypeError]. *)
Theorem C8_graph_null_raises :
  parse fresh url_with_date (mk_page [graph_null] []) = Raise TypeError.
Proof. reflexivity. Qed.

(** The same claim fails a second way: a [meta] tag whose content makes the
    parser raise an exception that line 51 does not catch ends the call
    with that exception. *)
Example meta_overlong_time_raises :
  parse fresh url_without_date
        (mk_page [] [meta_published overlong_time])
  = Raise (OtherError "decimal.InvalidOperation").
Proof. reflexivity. Qed.

(** C6.  In the flat object whose [dateModified] is a time with an
    overlong minutes field and whose [datePublished] is 2023-12-01, the
    first value does not parse, yet it is not dropped: the parser's
    exception leaves [parse_date_str], the object yields nothing and the
    call ends with the exception, so the published date of the second key
    is lost.  A value that the parser rejects with a caught exception is
    dropped as the claim says: with "not a date" in its place the object
    yields the published entry with score 9. *)
Theorem C6_unparseable_value_ends_the_call :
  script_tag_matches flat_overlong
  = Raise (OtherError "decimal.InvalidOperation") /\
  parse fresh url_without_date (mk_page [flat_overlong] [])
  = Raise (OtherError "decimal.InvalidOperation") /\
  script_tag_matches flat_not_a_date = Ok [(ymd 2023 12 1, 9, published)].
Proof. repeat split. Qed.

(** C4, as first stated, fails.  Seen from 2024-06-01 at noon, a [meta]
    element dated the same day at 23:30 lies strictly in the future, so
    the stated score is 5, but it scores 7: only calendar days are
    compared.  A [meta] element dated 1999-06-07 is less than 25 years
    old, so the stated score is 7, but it scores 6: it is more than
    [25 * 365] days old. *)
Lemma C4_stated_score_differs :
  (candidate_matches
     (meta_published "2024-06-01T23:30:00", "content", published)
   = Ok [(mk_datetime 2024 6 1 23 30 0 0 None, 7, published)] /\
   strictly_later (mk_datetime 2024 6 1 23 30 0 0 None) now = true /\
   stated_meta_score (meta_published "2024-06-01T23:30:00") published
                     (mk_datetime 2024 6 1 23 30 0 0 None) = 5) /\
  (candidate_matches (meta_published "1999-06-07", "content", published)
   = Ok [(ymd 1999 6 7, 6, published)] /\
   more_than_25_years_before (ymd 1999 6 7) now = false /\
   stated_meta_score (meta_published "1999-06-07") published
                     (ymd 1999 6 7) = 7).
Proof. repeat split. Qed.

Lemma C4_meta_score_witness :
  candidate_matches (meta_published "2025-06-01", "content", published) =
  Ok [(ymd 2025 6 1, 5, published)] /\
  meta_score (meta_published "2025-06-01") published (ymd 2025 6 1) =
  meta_score (meta_published "2025-06-01") published (ymd 2023 6 1) - 2.
Proof.
  assert (Hparse :
            parse_date_str
              (of_option
                 (get_attribute (meta_published "2025-06-01") "content"))
            = Ok (Some (ymd 2025 6 1))) by reflexivity.
  destruct (C4_meta_score (meta_published "2025-06-01") "content" published
                          (ymd 2025 6 1) Hparse) as (Hc & Hrecent).
  split; [exact Hc|].
  apply Hrecent; unfold future_dated, past_dated, very_old;
    vm_compute; congruence.
Defined.

Lemma C3_returned_value_witness :
  exists date_matches,
    harvest url_without_date busy_page = Ok date_matches /\
    first_of_type updated (sort_reverse date_matches)
                  (Some (ymd 2024 1 2)) /\
    first_of_type published (sort_reverse date_matches)
                  (Some (ymd 2023 12 1)).
Proof.
  assert (Hrun : parse fresh url_without_date busy_page =
                 Ok ({| pubdate := Some (ymd 2023 12 1);
                        updatedate := Some (ymd 2024 1 2) |},
                     Some (ymd 2024 1 2))) by reflexivity.
  destruct (C3_returned_value fresh url_without_date busy_page _ _ Hrun)
    as (date_matches & Hh & Hu & Hp & _).
  exists date_matches. repeat split; assumption.
Defined.

Lemma C7_url_date_witness :
  url_date_matches url_with_date = Ok [(ymd 2023 4 15, 10, published)] /\
  parse fresh url_with_date empty_page =
  Ok ({| pubdate := Some (ymd 2023 4 15); updatedate := None |},
      Some (ymd 2023 4 15)) /\
  url_date_matches url_without_date = Ok [] /\
  parse fresh url_without_date (mk_page [flat_both] []) =
  Ok (select_dates [(ymd 2024 1 2, 9, updated);
                    (ymd 2023 12 1, 9, published)]).
Proof.
  destruct (C7_url_date fresh url_with_date empty_page) as [Hmatch _].
  destruct (Hmatch "2023/04/15/" (ymd 2023 4 15) eq_refl eq_refl)
    as [Hone Halone].
  destruct (C7_url_date fresh url_without_date (mk_page [flat_both] []))
    as [_ Hmiss].
  destruct (Hmiss (or_introl eq_refl)) as [Hnone Hrest].
  split; [exact Hone|].
  split; [exact (Halone eq_refl eq_refl eq_refl)|].
  split; [exact Hnone|].
  rewrite Hrest. reflexivity.
Defined.

(** Two entries of equal score: the [updated] one is sorted first. *)
Example tie_break_updated_first :
  sort_reverse [(ymd 2024 1 2, 9, published); (ymd 2024 1 2, 9, updated)] =
  [(ymd 2024 1 2, 9, updated); (ymd 2024 1 2, 9, published)].
Proof. reflexivity. Qed.

(** A [meta] tag naming a modification time (6 + 1 + 2 = 9) and a [<time>]
    element with the text "Published ..." (7): both dates are kept. *)
Example meta_updated_and_time_published :
  parse fresh url_without_date
        (mk_page []
                 [ mk_element "meta"
                              [("property", "article:modified_time");
                               ("content", "2024-01-02")] None;
                   time_published ]) =
  Ok ({| pubdate := Some (ymd 2023 12 1);
         updatedate := Some (ymd 2024 1 2) |},
      Some (ymd 2024 1 2)).
Proof. reflexivity. Qed.

(** No evidence at all: nothing is found. *)
Example nothing_found :
  parse fresh url_without_date empty_page =
  Ok ({| pubdate := None; updatedate := None |}, None).
Proof. reflexivity. Qed.

End Examples.


(* ================================================================== *)
(** * More about the selector *)

Section SelectorFacts.

Lemma stable_sort_sorted_id (l : list date_match) :
  StronglySorted ascending l -> stable_sort l = l.
Proof.
  induction 1 as [|x l Hs IH Hx]; simpl; [reflexivity|].
  rewrite IH. now apply insert_sorted_front.
Qed.

Lemma insert_sorted_app (x : date_match) (s1 s2 : list date_match) :
  Forall (ascending x) s2 ->
  insert_sorted x (s1 ++ s2) = insert_sorted x s1 ++ s2.
Proof.
  intros Hx. induction s1 as [|y s1 IH]; simpl.
  - now apply insert_sorted_front.
  - destruct (dm_le x y); [reflexivity|]. now rewrite IH.
Qed.

Lemma stable_sort_app (l1 l2 : list date_match) :
  (forall x y, In x l1 -> In y l2 -> dm_le x y = true) ->
  stable_sort (l1 ++ l2) = stable_sort l1 ++ stable_sort l2.
Proof.
  induction l1 as [|x l1 IH]; simpl; intros Hle; [reflexivity|].
  rewrite IH by (intros; apply Hle; auto).
  apply insert_sorted_app. rewrite Forall_forall. intros y Hy.
  apply Hle; [now left|].
  eapply Permutation_in; [apply stable_sort_perm|exact Hy].
Qed.

Lemma sort_reverse_app (a b : list date_match) :
  (forall x y, In x a -> In y b -> dm_le y x = true) ->
  sort_reverse (a ++ b) = sort_reverse a ++ sort_reverse b.
Proof.
  intros Hle. unfold sort_reverse.
  rewrite rev_app_distr, stable_sort_app, rev_app_distr; [reflexivity|].
  intros x y Hx Hy. apply in_rev in Hx, Hy. now apply Hle.
Qed.

Lemma sort_reverse_sorted_id (l : list date_match) :
  StronglySorted descending l -> sort_reverse l = l.
Proof.
  intros Hs. unfold sort_reverse.
  rewrite stable_sort_sorted_id; [apply rev_involutive|].
  induction Hs as [|x l Hs IH Hx]; simpl; [constructor|].
  apply StronglySorted_app; [exact IH|repeat constructor|].
  intros a b Ha [<-|[]]. apply in_rev in Ha.
  rewrite Forall_forall in Hx. now apply Hx.
Qed.

Lemma next_of_type_by_type (t : date_type) (l : list date_match) :
  next_of_type t (sort_reverse l) =
  next_of_type t (sort_reverse (filter (is_type t) l)).
Proof.
  rewrite <- filter_sort_reverse. symmetry.
  apply next_of_type_filter. intros c Hc. unfold is_type.
  now apply date_type_eqb_eq.
Qed.

Lemma next_of_type_app_found (t : date_type) (l1 l2 : list date_match) c :
  In c l1 -> dm_type c = t ->
  next_of_type t (l1 ++ l2) = next_of_type t l1.
Proof.
  intros Hin Hc. unfold next_of_type. f_equal.
  induction l1 as [|x l1 IH]; simpl; [destruct Hin|].
  destruct (date_type_eqb (dm_type x) t) eqn:E; [reflexivity|].
  destruct Hin as [->|Hin]; [|now apply IH].
  apply date_type_eqb_neq in E. contradiction.
Qed.

Lemma same_type_le (t : date_type) (x y : date_match) :
  dm_type x = t -> dm_type y = t ->
  dm_score x <= dm_score y -> dm_le x y = true.
Proof.
  intros Hx Hy Hs. unfold dm_le, key_le, sort_key. simpl.
  rewrite Hx, Hy. destruct (date_type_eqb t updated); simpl;
    destruct (Z.ltb_spec (dm_score x) (dm_score y)); simpl; trivial;
    rewrite ?andb_true_r; apply Z.eqb_eq; lia.
Qed.

(** Entries of type [t] placed behind entries of type [t] that score at
    least as much do not change the result for [t]. *)
Lemma next_of_type_earlier_wins (t : date_type) (a b : list date_match) :
  (exists c, In c a /\ dm_type c = t) ->
  (forall x y, In x a -> In y b -> dm_type x = t -> dm_type y = t ->
               dm_score y <= dm_score x) ->
  next_of_type t (sort_reverse (a ++ b)) = next_of_type t (sort_reverse a).
Proof.
  intros (c & Hc & Ht) Hle.
  rewrite (next_of_type_by_type t (a ++ b)), (next_of_type_by_type t a).
  rewrite filter_app, sort_reverse_app.
  - apply next_of_type_app_found with (c := c); [|exact Ht].
    eapply Permutation_in; [symmetry; apply sort_reverse_perm|].
    apply filter_In. split; [exact Hc|].
    unfold is_type. now apply date_type_eqb_eq.
  - intros x y Hx Hy. apply filter_In in Hx, Hy.
    destruct Hx as [Hx Tx], Hy as [Hy Ty].
    unfold is_type in Tx, Ty. apply date_type_eqb_eq in Tx, Ty.
    apply (same_type_le t); trivial. now apply Hle.
Qed.

Lemma filter_filter_and {A} (p q : A -> bool) (l : list A) :
  filter p (filter q l) = filter (fun x => q x && p x) l.
Proof.
  induction l as [|x l IH]; simpl; [reflexivity|].
  destruct (q x); simpl; [|exact IH].
  destruct (p x); now rewrite IH.
Qed.

Lemma filter_cons_split {A} (p : A -> bool) (l : list A) c r :
  filter p l = c :: r ->
  exists pre post,
    l = pre ++ c :: post /\ (forall x, In x pre -> p x = false) /\
    p c = true.
Proof.
  induction l as [|x l IH]; simpl; [discriminate|].
  destruct (p x) eqn:E.
  - intros [= -> <-]. exists [], l. repeat split; trivial. intros ? [].
  - intros Hf. destruct (IH Hf) as (pre & post & -> & Hpre & Hc).
    exists (x :: pre), post. repeat split; trivial.
    intros y [<-|Hy]; auto.
Qed.

Lemma next_of_type_head (t : date_type) (l : list date_match) :
  Forall (fun c => dm_type c = t) l ->
  next_of_type t l = option_map dm_date (hd_error l).
Proof.
  unfold next_of_type. destruct 1 as [|c l Hc _]; simpl; [reflexivity|].
  apply date_type_eqb_eq in Hc. now rewrite Hc.
Qed.

Lemma same_key_refl (c : date_match) : same_key (sort_key c) c = true.
Proof.
  unfold same_key. rewrite Z.eqb_refl, Bool.eqb_reflx. reflexivity.
Qed.

Lemma same_key_same_type_score (t : date_type) (c x : date_match) :
  dm_type c = t -> dm_type x = t ->
  same_key (sort_key c) x = false -> dm_score x <> dm_score c.
Proof.
  unfold same_key, sort_key. simpl. intros Hc Hx. rewrite Hc, Hx.
  rewrite andb_false_iff, Z.eqb_neq.
  intros [Hn|Hb]; [exact Hn|].
  now destruct (date_type_eqb t updated).
Qed.

Lemma next_of_type_first_best (t : date_type) (l : list date_match) :
  first_best_of_type t l (next_of_type t (sort_reverse l)).
Proof.
  rewrite next_of_type_by_type.
  set (L := filter (is_type t) l).
  assert (HL : forall x, In x L <-> In x l /\ dm_type x = t).
  { intros x. unfold L. rewrite filter_In. unfold is_type.
    now rewrite date_type_eqb_eq. }
  assert (HS : forall x, In x (sort_reverse L) <-> In x L).
  { intros x. split; apply Permutation_in;
      [|symmetry]; apply sort_reverse_perm. }
  rewrite next_of_type_head.
  2:{ rewrite Forall_forall. intros x Hx. now apply HS, HL in Hx. }
  pose proof (sort_reverse_sorted L) as Hsorted.
  pose proof (sort_reverse_stable) as Hstable.
  destruct (sort_reverse L) as [|c S] eqn:E; simpl.
  - intros x Hx Tx. apply (proj2 (HS x)). apply HL. now split.
  - assert (Hc : In c l /\ dm_type c = t).
    { apply HL, HS. now left. }
    destruct Hc as [_ Tc].
    assert (Hmax : forall x, In x l -> dm_type x = t ->
                             dm_score x <= dm_score c).
    { intros x Hx Tx.
      assert (Hin : In x (c :: S)) by (apply HS, HL; now split).
      destruct Hin as [<-|Hin]; [lia|].
      inversion Hsorted as [|? ? _ Hall]; subst.
      rewrite Forall_forall in Hall. apply dm_le_score. now apply Hall. }
    specialize (Hstable (sort_key c) L). rewrite E in Hstable.
    simpl in Hstable. rewrite same_key_refl in Hstable.
    unfold L in Hstable. rewrite filter_filter_and in Hstable.
    symmetry in Hstable. apply filter_cons_split in Hstable.
    destruct Hstable as (pre & post & Hl & Hpre & _).
    exists pre, c, post. repeat split; trivial.
    + intros x Hx Tx.
      assert (Hne : dm_score x <> dm_score c).
      { apply (same_key_same_type_score t); trivial.
        specialize (Hpre x Hx). unfold is_type in Hpre.
        apply date_type_eqb_eq in Tx. now rewrite Tx in Hpre. }
      assert (dm_score x <= dm_score c).
      { apply Hmax; trivial. rewrite Hl. apply in_or_app. now left. }
      lia.
    + intros x Hx Tx. apply Hmax; trivial.
      rewrite Hl. apply in_or_app. right. now right.
Qed.

Lemma select_dates_filter_unknown (l : list date_match) :
  select_dates (filter not_unknown l) = select_dates l.
Proof.
  unfold select_dates. rewrite <- filter_sort_reverse.
  rewrite !next_of_type_filter; [reflexivity| |];
    intros c Hc; unfold not_unknown; now rewrite Hc.
Qed.

Lemma select_dates_app_unknown (l u : list date_match) :
  Forall (fun c => dm_type c = unknown) u ->
  select_dates (l ++ u) = select_dates l.
Proof.
  intros Hu. rewrite <- (select_dates_filter_unknown (l ++ u)).
  rewrite <- (select_dates_filter_unknown l). f_equal.
  rewrite filter_app.
  assert (E : filter not_unknown u = []).
  { induction Hu as [|c u Hc _ IH]; simpl; [reflexivity|].
    unfold not_unknown at 1. now rewrite Hc. }
  rewrite E. apply app_nil_r.
Qed.

End SelectorFacts.


(* ================================================================== *)
(** * More about the stages *)

Section StageFacts.

Context {Doc : Type} `{Imports Doc}.

Lemma scores_within_app (lo hi : Z) (a b : list date_match) :
  scores_within lo hi (a ++ b) <->
  scores_within lo hi a /\ scores_within lo hi b.
Proof. apply Forall_app. Qed.

Lemma scores_within_weaken (lo hi lo' hi' : Z) (l : list date_match) :
  lo' <= lo -> hi <= hi' -> scores_within lo hi l -> scores_within lo' hi' l.
Proof.
  intros Hlo Hhi. apply Forall_impl. intros c Hc. lia.
Qed.

Lemma Forall_flat_map_intro {A B} (P : B -> Prop) (f : A -> list B) l :
  (forall a, Forall P (f a)) -> Forall P (flat_map f l).
Proof.
  intros Hf. induction l as [|a l IH]; simpl; [constructor|].
  apply Forall_app. split; [apply Hf|exact IH].
Qed.

Lemma Forall_flat_map_In {A B} (P : B -> Prop) (f : A -> list B) l :
  (forall a, In a l -> Forall P (f a)) -> Forall P (flat_map f l).
Proof.
  intros Hf. induction l as [|a l IH]; simpl; [constructor|].
  apply Forall_app. split; [apply Hf; now left|].
  apply IH. intros; apply Hf; now right.
Qed.

(** *** Scores *)

Lemma url_entries_scores (article_url : string) :
  Forall (fun c => dm_score c = 10 /\ dm_type c = published)
         (url_entries article_url).
Proof.
  unfold url_entries.
  destruct (strict_date_search article_url) as [m|]; [|constructor].
  destruct (parsed_date (PyStr m)); repeat constructor.
Qed.

Lemma key_entries_scores (d : dict) (k : string) (score : Z) (t : date_type) :
  scores_within score score (key_entries d k score t).
Proof.
  unfold key_entries, scores_within.
  destruct (parsed_date _); repeat constructor; unfold dm_score; simpl; lia.
Qed.

Lemma item_entries_scores (item : pyobj) :
  scores_within 10 10 (item_entries item).
Proof.
  destruct item; simpl; try constructor.
  apply scores_within_app. split; apply key_entries_scores.
Qed.

Lemma flat_key_entries_scores (script_tag : dict) (k : string) :
  scores_within 9 9 (flat_key_entries script_tag k).
Proof.
  unfold flat_key_entries.
  destruct (String.eqb k "dateModified"); [apply key_entries_scores|].
  destruct (_ || _); [apply key_entries_scores|constructor].
Qed.

Lemma object_entries_scores (script_tag : dict) :
  scores_within 9 10 (object_entries script_tag).
Proof.
  unfold object_entries.
  destruct (dict_get "@graph" script_tag) as [g|].
  - destruct (py_iter g); [|constructor].
    apply Forall_flat_map_intro. intros item.
    eapply scores_within_weaken; [| |apply item_entries_scores]; lia.
  - apply Forall_flat_map_intro. intros k.
    eapply scores_within_weaken; [| |apply flat_key_entries_scores]; lia.
Qed.

Lemma time_entries_scores (item : element) :
  scores_within 5 8 (time_entries item).
Proof.
  unfold time_entries, time_tag_entry.
  destruct (parsed_date _); [|constructor].
  destruct (text_search _ _); [|destruct (text_search _ _)];
    repeat constructor; unfold dm_score; simpl; lia.
Qed.

Lemma meta_score_range (meta_tag : element) (ty : date_type) (t : datetime) :
  4 <= meta_score meta_tag ty t <= 9 /\
  (ty <> updated -> meta_score meta_tag ty t <= 7) /\
  (ty = updated -> 6 <= meta_score meta_tag ty t).
Proof.
  rewrite meta_score_sum. cbv zeta.
  destruct (is_meta meta_tag), ty; cbn [date_type_eqb];
    destruct (Z.ltb_spec (Calendar.days_between now t) 0);
    destruct (Z.ltb_spec (25 * 365) (Calendar.days_between now t));
    repeat split; intros; try congruence; lia.
Qed.

Lemma candidate_entries_scores (c : element * string * date_type) :
  Forall (fun m => 4 <= dm_score m <= 9 /\
                   (dm_type m <> updated -> dm_score m <= 7) /\
                   (dm_type m = updated -> 6 <= dm_score m) /\
                   dm_type m = snd c)
         (candidate_entries c).
Proof.
  unfold candidate_entries.
  destruct (parsed_date _); repeat constructor;
    unfold dm_score, dm_type; simpl; apply meta_score_range.
Qed.

Lemma late_entries_scores (doc : Doc) : scores_within 4 9 (late_entries doc).
Proof.
  apply scores_within_app. split; apply Forall_flat_map_intro.
  - intros item.
    eapply scores_within_weaken; [| |apply time_entries_scores]; lia.
  - intros c. eapply Forall_impl; [|apply candidate_entries_scores].
    simpl. intros m [Hm _]. exact Hm.
Qed.

Lemma early_entries_scores (article_url : string) (scripts : list dict) :
  scores_within 9 10
    (url_entries article_url ++ flat_map object_entries scripts).
Proof.
  apply scores_within_app. split.
  - eapply Forall_impl; [|apply url_entries_scores].
    simpl. intros c [Hc _]. lia.
  - apply Forall_flat_map_intro, object_entries_scores.
Qed.

Lemma harvest_entries_shape (article_url : string) (doc : Doc) :
  harvest_entries article_url doc =
  (url_entries article_url
     ++ flat_map object_entries (get_ld_json_object doc))
    ++ late_entries doc.
Proof.
  unfold harvest_entries, late_entries. now rewrite <- !app_assoc.
Qed.

(** *** Provenance *)

Lemma key_entries_parsed (d : dict) (k : string) (score : Z) (t : date_type) :
  Forall from_parsed_string (key_entries d k score t).
Proof.
  unfold key_entries.
  destruct (parsed_date _) eqn:E; repeat constructor.
  eapply parsed_date_parsed, E.
Qed.

Lemma object_entries_parsed (script_tag : dict) :
  Forall from_parsed_string (object_entries script_tag).
Proof.
  unfold object_entries.
  destruct (dict_get "@graph" script_tag) as [g|].
  - destruct (py_iter g); [|constructor].
    apply Forall_flat_map_intro. intros item.
    destruct item; simpl; try constructor.
    apply Forall_app. split; apply key_entries_parsed.
  - apply Forall_flat_map_intro. intros k. unfold flat_key_entries.
    destruct (String.eqb k "dateModified"); [apply key_entries_parsed|].
    destruct (_ || _); [apply key_entries_parsed|constructor].
Qed.

Lemma harvest_entries_parsed (article_url : string) (doc : Doc) :
  Forall from_parsed_string (harvest_entries article_url doc).
Proof.
  unfold harvest_entries. repeat rewrite Forall_app. repeat split.
  - unfold url_entries.
    destruct (strict_date_search article_url) as [m|]; [|constructor].
    destruct (parsed_date (PyStr m)) eqn:E; repeat constructor.
    eapply parsed_date_parsed, E.
  - apply Forall_flat_map_intro, object_entries_parsed.
  - apply Forall_flat_map_intro. intros item. unfold time_entries.
    destruct (parsed_date _) eqn:E; repeat constructor.
    unfold from_parsed_string. rewrite time_tag_entry_date.
    apply (parsed_date_parsed _ d 0 unknown E).
  - apply Forall_flat_map_intro. intros c. unfold candidate_entries.
    destruct (parsed_date _) eqn:E; repeat constructor.
    eapply parsed_date_parsed, E.
Qed.

Lemma next_of_type_In (t : date_type) (l : list date_match) (d : datetime) :
  next_of_type t (sort_reverse l) = Some d ->
  exists c, In c l /\ dm_type c = t /\ dm_date c = d.
Proof.
  intros E. pose proof (next_of_type_first t (sort_reverse l)) as F.
  rewrite E in F. destruct F as (pre & c & post & Hs & _ & Hc & Hd).
  exists c. repeat split; trivial.
  eapply Permutation_in; [apply sort_reverse_perm|].
  rewrite Hs. apply in_or_app. right. now left.
Qed.

Lemma for_each_app {A B} (body : A -> result (list B)) (xs ys : list A) :
  for_each (xs ++ ys) body =
  (a <- for_each xs body ;; b <- for_each ys body ;; Ok (a ++ b)).
Proof.
  induction xs as [|x xs IH]; simpl.
  - destruct (for_each ys body); reflexivity.
  - destruct (body x) as [r|]; simpl; [|reflexivity].
    rewrite IH. destruct (for_each xs body) as [a|]; simpl; [|reflexivity].
    destruct (for_each ys body) as [b|]; simpl; [|reflexivity].
    now rewrite app_assoc.
Qed.

(** *** The backspace in the pattern *)

Lemma lower_char_backspace (c : ascii) :
  Ascii.eqb (Str.lower_char c) BACKSPACE = Ascii.eqb c BACKSPACE.
Proof.
  destruct c as [[] [] [] [] [] [] [] []]; reflexivity.
Qed.

Lemma no_backspace_lower (s : string) :
  no_backspace (Str.lower s) = no_backspace s.
Proof.
  induction s as [|c s IH]; [reflexivity|].
  cbn [no_backspace Str.lower]. now rewrite lower_char_backspace, IH.
Qed.

Lemma contains_backspace_prefix (p s : string) :
  no_backspace s = true -> Str.contains (String BACKSPACE p) s = false.
Proof.
  induction s as [|c s IH]; [reflexivity|].
  cbn [no_backspace Str.contains Str.startswith].
  rewrite andb_true_iff, negb_true_iff. intros [Hc Hs].
  rewrite Ascii.eqb_sym, Hc. cbn [andb orb]. now apply IH.
Qed.

End StageFacts.


(* ================================================================== *)
(** * Further properties of the extractor *)

Section SelectorProperties.

(** X6.  Each of the two results is the date of the entry that comes first
    in the list as harvested among the entries of its type with the highest
    score: a tie between entries of one type is settled by the order in
    which the stages appended them. *)
Theorem X6_selected_is_first_best (date_matches : list date_match) :
  let self := fst (select_dates date_matches) in
  first_best_of_type updated date_matches (updatedate self) /\
  first_best_of_type published date_matches (pubdate self).
Proof. cbv zeta. split; apply next_of_type_first_best. Qed.

(** X9.  Nothing is selected and nothing returned exactly when every
    harvested entry is of type [unknown]. *)
Theorem X9_nothing_selected_iff_all_unknown (date_matches : list date_match) :
  select_dates date_matches = ({| pubdate := None; updatedate := None |}, None)
  <-> forall c, In c date_matches -> dm_type c = unknown.
Proof.
  unfold select_dates. split.
  - intros [= Hp Hu _] c Hc.
    pose proof (next_of_type_first_best updated date_matches) as Fu.
    pose proof (next_of_type_first_best published date_matches) as Fp.
    rewrite Hu in Fu. rewrite Hp in Fp. simpl in Fu, Fp.
    specialize (Fu c Hc). specialize (Fp c Hc).
    destruct (dm_type c); congruence.
  - intros Hall.
    assert (Hnone : forall t, t <> unknown ->
                              next_of_type t (sort_reverse date_matches) = None).
    { intros t Ht. destruct (next_of_type t _) as [d|] eqn:E; [|reflexivity].
      apply next_of_type_In in E. destruct E as (c & Hc & Tc & _).
      rewrite (Hall c Hc) in Tc. congruence. }
    rewrite !Hnone by discriminate. reflexivity.
Qed.

(** X10.  Sorting a second time changes nothing: the sorted list is a fixed
    point of the sort, and selecting from it gives the same results. *)
Theorem X10_sort_idempotent (date_matches : list date_match) :
  sort_reverse (sort_reverse date_matches) = sort_reverse date_matches /\
  select_dates (sort_reverse date_matches) = select_dates date_matches.
Proof.
  assert (E : sort_reverse (sort_reverse date_matches)
              = sort_reverse date_matches)
    by apply sort_reverse_sorted_id, sort_reverse_sorted.
  split; [exact E|]. unfold select_dates. now rewrite E.
Qed.

(** X13.  Entries placed behind a list that has an entry of type [t] do not
    change the result for [t] as long as none of them of type [t] scores
    more than some entry of type [t] of the list in front. *)
Theorem X13_earlier_evidence_wins (t : date_type) (a b : list date_match) :
  (exists c, In c a /\ dm_type c = t) ->
  (forall x y, In x a -> In y b -> dm_type x = t -> dm_type y = t ->
               dm_score y <= dm_score x) ->
  next_of_type t (sort_reverse (a ++ b)) = next_of_type t (sort_reverse a).
Proof. apply next_of_type_earlier_wins. Qed.

End SelectorProperties.

Section ExtractorProperties.

Context {Doc : Type} {I : Imports Doc}.

(** X2.  [parse] returns exactly when the ["@graph"] value of every JSON-LD
    object that has one can be iterated and the parser raises no exception
    outside the four caught classes on any raw value the stages read;
    otherwise it raises, whatever else the page provides. *)
Theorem X2_parse_returns_iff (self : PubdateExtractor) (article_url : string)
        (doc : Doc) :
  ((exists r, parse self article_url doc = Ok r) <->
   page_ok article_url doc = true) /\
  ((exists e, parse self article_url doc = Raise e) <->
   page_ok article_url doc = false).
Proof.
  rewrite <- harvest_ok_page_ok.
  pose proof (harvest_outcome article_url doc) as Ho.
  unfold outcome_is in Ho. unfold parse.
  destruct (harvest_ok article_url doc).
  - rewrite Ho. simpl. split; split; eauto; try discriminate.
    intros [e He]. discriminate.
  - destruct Ho as [e ->]. simpl. split; split; eauto; try discriminate.
    intros [r Hr]. discriminate.
Qed.

(** X3.  Score ranges of the entries a stage has appended when it returns:
    the URL stage scores 10, a structured-data object 9 or 10, a [<time>]
    element between 5 and 8, an entry of the meta stage between 4 and 9
    and at most 7 unless it is of type [updated]; every entry that reaches
    the sort scores between 4 and 10. *)
Theorem X3_score_ranges (article_url : string) (doc : Doc) :
  (forall l, url_date_matches article_url = Ok l -> scores_within 10 10 l) /\
  (forall script_tag l,
      script_tag_matches script_tag = Ok l -> scores_within 9 10 l) /\
  (forall item l, time_tag_matches item = Ok l -> scores_within 5 8 l) /\
  (forall c l,
      candidate_matches c = Ok l ->
      scores_within 4 9 l /\ (snd c <> updated -> scores_within 4 7 l)) /\
  (forall date_matches,
      harvest article_url doc = Ok date_matches ->
      scores_within 4 10 date_matches).
Proof.
  split; [|split; [|split; [|split]]].
  - intros l Hl.
    apply (outcome_Ok _ _ _ _ (url_date_matches_outcome article_url)) in Hl.
    destruct Hl as [_ ->].
    eapply Forall_impl; [|apply url_entries_scores].
    simpl. intros c [Hc _]. lia.
  - intros script_tag l Hl.
    apply (outcome_Ok _ _ _ _ (script_tag_matches_outcome script_tag)) in Hl.
    destruct Hl as [_ ->]. apply object_entries_scores.
  - intros item l Hl.
    apply (outcome_Ok _ _ _ _ (time_tag_matches_outcome item)) in Hl.
    destruct Hl as [_ ->]. apply time_entries_scores.
  - intros c l Hl.
    apply (outcome_Ok _ _ _ _ (candidate_matches_outcome c)) in Hl.
    destruct Hl as [_ ->]. split.
    + eapply Forall_impl; [|apply candidate_entries_scores].
      simpl. intros m [Hm _]. exact Hm.
    + intros Hc. eapply Forall_impl; [|apply candidate_entries_scores].
      simpl. intros m (Hm & Hle & _ & Ht). rewrite <- Ht in Hc.
      specialize (Hle Hc). lia.
  - intros date_matches Hh. apply harvest_Ok in Hh. destruct Hh as [_ ->].
    rewrite harvest_entries_shape. apply scores_within_app. split.
    + eapply scores_within_weaken; [| |apply early_entries_scores]; lia.
    + eapply scores_within_weaken; [| |apply late_entries_scores]; lia.
Qed.

(** X5.  A date found in the URL is always the published result of a call
    that returns: when the strict pattern matches and the match parses, no
    other evidence on the page replaces it. *)
Theorem X5_url_date_is_published_result
        (self : PubdateExtractor) (article_url : string) (doc : Doc)
        (m : string) (d : datetime)
        (self' : PubdateExtractor) (returned : option datetime) :
  strict_date_search article_url = Some m ->
  parse_date_str (PyStr m) = Ok (Some d) ->
  parse self article_url doc = Ok (self', returned) ->
  pubdate self' = Some d.
Proof.
  intros Hm Hp Hrun. apply parse_Ok in Hrun. destruct Hrun as [_ Hr].
  apply (f_equal (fun r => pubdate (fst r))) in Hr. simpl in Hr.
  rewrite Hr. clear Hr.
  assert (Hu : url_entries article_url = [(d, 10, published)]).
  { unfold url_entries. rewrite Hm.
    apply parse_date_str_Ok in Hp. destruct Hp as [<- _]. reflexivity. }
  pose proof (object_entries_scores) as Ho.
  pose proof (late_entries_scores doc) as Hl.
  rewrite harvest_entries_shape, Hu, <- app_assoc.
  rewrite (next_of_type_earlier_wins published [(d, 10, published)]).
  - reflexivity.
  - exists (d, 10, published). split; [now left|reflexivity].
  - intros x y [<-|[]] Hy _ _. unfold dm_score at 2. simpl.
    apply in_app_or in Hy. destruct Hy as [Hy|Hy].
    + apply in_flat_map in Hy. destruct Hy as (st & _ & Hy).
      specialize (Ho st). unfold scores_within in Ho.
      rewrite Forall_forall in Ho. apply Ho in Hy. lia.
    + unfold scores_within in Hl. rewrite Forall_forall in Hl.
      apply Hl in Hy. lia.
Qed.

(** X12.  What the URL and the structured data say is never overridden by
    [<time>] elements or meta tags: in a call that returns, when the first
    two stages have yielded an entry of a type, the result for that type
    is the one selected among their entries alone. *)
Theorem X12_structured_data_outranks_later_stages
        (self : PubdateExtractor) (article_url : string) (doc : Doc)
        (u ld : list date_match)
        (self' : PubdateExtractor) (returned : option datetime) :
  url_date_matches article_url = Ok u ->
  json_ld_matches (get_ld_json_object doc) = Ok ld ->
  parse self article_url doc = Ok (self', returned) ->
  let early := u ++ ld in
  ((exists c, In c early /\ dm_type c = updated) ->
   updatedate self' = next_of_type updated (sort_reverse early)) /\
  ((exists c, In c early /\ dm_type c = published) ->
   pubdate self' = next_of_type published (sort_reverse early)).
Proof.
  intros Hu Hld Hrun. cbv zeta.
  apply (outcome_Ok _ _ _ _ (url_date_matches_outcome article_url)) in Hu.
  apply (outcome_Ok _ _ _ _ (json_ld_matches_outcome _)) in Hld.
  destruct Hu as [_ ->], Hld as [_ ->].
  apply parse_Ok in Hrun. destruct Hrun as [_ Hr].
  rewrite harvest_entries_shape in Hr.
  pose proof (early_entries_scores article_url (get_ld_json_object doc))
    as He.
  pose proof (late_entries_scores doc) as Hl.
  unfold scores_within in *. rewrite Forall_forall in He, Hl.
  split; intros Hex.
  - apply (f_equal (fun r => updatedate (fst r))) in Hr. simpl in Hr.
    rewrite Hr. apply next_of_type_earlier_wins; trivial.
    intros x y Hx Hy _ _. apply He in Hx. apply Hl in Hy. lia.
  - apply (f_equal (fun r => pubdate (fst r))) in Hr. simpl in Hr.
    rewrite Hr. apply next_of_type_earlier_wins; trivial.
    intros x y Hx Hy _ _. apply He in Hx. apply Hl in Hy. lia.
Qed.

(** X7.  Whatever [parse] stores or returns is a date that [date_parser]
    produced from a non-empty raw string. *)
Theorem X7_results_come_from_parsed_strings
        (self : PubdateExtractor) (article_url : string) (doc : Doc)
        (self' : PubdateExtractor) (returned : option datetime) :
  parse self article_url doc = Ok (self', returned) ->
  forall d,
    updatedate self' = Some d \/ pubdate self' = Some d \/ returned = Some d ->
    exists raw : string, raw <> "" /\ date_parser raw = Parsed d.
Proof.
  intros Hrun d Hd. apply parse_Ok in Hrun. destruct Hrun as [_ Hr].
  set (l := harvest_entries article_url doc) in *.
  injection Hr as -> ->. simpl in Hd.
  assert (Hsel : exists t, next_of_type t (sort_reverse l) = Some d).
  { destruct Hd as [Hd|[Hd|Hd]]; eauto.
    unfold py_or in Hd.
    destruct (next_of_type updated (sort_reverse l)) eqn:E;
      [exists updated; congruence|eauto]. }
  destruct Hsel as [t Ht]. apply next_of_type_In in Ht.
  destruct Ht as (c & Hc & _ & <-).
  pose proof (harvest_entries_parsed article_url doc) as Hall.
  rewrite Forall_forall in Hall. exact (Hall c Hc).
Qed.

(** X11.  The JSON-LD objects are handled one after the other and
    independently: the entries of a sequence of objects are those of its
    first part followed by those of the rest, and a raise in either part
    is a raise of the whole. *)
Theorem X11_json_ld_objects_compose (a b : list dict) :
  json_ld_matches (a ++ b) =
  (x <- json_ld_matches a ;; y <- json_ld_matches b ;; Ok (x ++ y)).
Proof. apply for_each_app. Qed.

(** X8.  On a text of code points below 256 without a backspace character
    the second alternative of the pattern for published dates never
    matches: such a [<time>] element is classified [published] only when
    its text contains "published". *)
Theorem X8_on_marker_needs_backspace (item : element) (s : string) :
  text item = Some s ->
  no_backspace s = true ->
  text_search PUBLISHED_TEXT_PATTERN (text item)
  = text_search ["published"] (text item) /\
  forall l c,
    time_tag_matches item = Ok l -> In c l -> dm_type c = published ->
    text_search ["published"] (text item) = true.
Proof.
  intros Ht Hs.
  assert (E : text_search PUBLISHED_TEXT_PATTERN (text item)
              = text_search ["published"] (text item)).
  { rewrite Ht. unfold text_search, re_search_I, PUBLISHED_TEXT_PATTERN.
    cbn [existsb]. f_equal. f_equal.
    change (Str.lower (String BACKSPACE "on:")) with (String BACKSPACE "on:").
    rewrite contains_backspace_prefix; [reflexivity|].
    now rewrite no_backspace_lower. }
  split; [exact E|].
  intros l c Hl.
  apply (outcome_Ok _ _ _ _ (time_tag_matches_outcome item)) in Hl.
  destruct Hl as [_ ->]. unfold time_entries, time_tag_entry.
  destruct (parsed_date _); [|intros []].
  destruct (text_search ["updated"; "modified"] (text item)).
  - intros [<-|[]]. discriminate.
  - rewrite E. destruct (text_search ["published"] (text item)); trivial.
    intros [<-|[]]. discriminate.
Qed.

(** X14.  What the JSON-LD stage appends when it returns, with order and
    multiplicity.  A graph object gives, for each mapping item of the graph
    in order, the [updated] entry of its [dateModified] and then the
    [published] entry of its [datePublished], each with score 10 and each
    only when the value parses; a flat object gives, for each of its keys
    in order, the [updated] entry when the key is [dateModified] and the
    [published] entry when it is [datePublished] or [dateCreated], with
    score 9 and only when the value parses.  The stage appends the entries
    of the objects in the order of the objects, and they stand in
    [date_matches] right behind those of the URL stage. *)
Theorem X14_structured_data_entries (article_url : string) (doc : Doc) :
  (forall script_tag l,
      script_tag_matches script_tag = Ok l -> l = object_entries script_tag) /\
  (forall scripts l,
      json_ld_matches scripts = Ok l -> l = flat_map object_entries scripts) /\
  (forall date_matches,
      harvest article_url doc = Ok date_matches ->
      exists u tm mt,
        url_date_matches article_url = Ok u /\
        for_each (get_tags doc "time") time_tag_matches = Ok tm /\
        for_each (candidates doc) candidate_matches = Ok mt /\
        date_matches =
        u ++ flat_map object_entries (get_ld_json_object doc) ++ tm ++ mt).
Proof.
  split; [|split].
  - intros script_tag l Hl.
    apply (outcome_Ok _ _ _ _ (script_tag_matches_outcome script_tag)) in Hl.
    now destruct Hl.
  - intros scripts l Hl.
    apply (outcome_Ok _ _ _ _ (json_ld_matches_outcome scripts)) in Hl.
    now destruct Hl.
  - intros date_matches. unfold harvest.
    destruct (url_date_matches article_url) as [u|]; simpl; [|discriminate].
    destruct (json_ld_matches (get_ld_json_object doc)) as [ld|] eqn:Hld;
      simpl; [|discriminate].
    destruct (for_each (get_tags doc "time") time_tag_matches) as [tm|];
      simpl; [|discriminate].
    destruct (for_each (candidates doc) candidate_matches) as [mt|];
      simpl; [|discriminate].
    intros [= <-]. exists u, tm, mt. repeat split.
    apply (outcome_Ok _ _ _ _ (json_ld_matches_outcome _)) in Hld.
    destruct Hld as [_ ->]. now rewrite <- !app_assoc.
Qed.

End ExtractorProperties.

Section TableProperties.

Context {Doc : Type} (I : Imports Doc).

Lemma candidates_without_tags (doc : Doc) :
  exists named,
    @candidates Doc I doc =
    named ++ flat_map (fun known_meta_tag =>
                         map (fun x => (x, pdt_content known_meta_tag, unknown))
                             (get_elements_by_attribs
                                doc (pdt_attribute known_meta_tag)
                                (pdt_value known_meta_tag)))
                      PUBLISH_DATE_TAGS /\
    @candidates Doc (without_publish_date_tags I) doc = named ++ [].
Proof.
  eexists. split.
  - unfold candidates. rewrite app_assoc. reflexivity.
  - unfold candidates. rewrite app_assoc. reflexivity.
Qed.

(** X4.  The elements matched through [PUBLISH_DATE_TAGS] never change what
    [parse] stores or returns: their entries are of type [unknown], so a
    call that returns gives the same outcome as the call with an empty
    table. *)
Theorem X4_publish_date_tags_never_selected
        (self : PubdateExtractor) (article_url : string) (doc : Doc)
        (r : PubdateExtractor * option datetime) :
  @parse Doc I self article_url doc = Ok r ->
  @parse Doc (without_publish_date_tags I) self article_url doc = Ok r.
Proof.
  intros Hrun.
  destruct (candidates_without_tags doc) as (named & Hc & Hc').
  assert (Hok : @harvest_ok Doc I article_url doc = true).
  { unfold parse in Hrun.
    destruct (harvest article_url doc) as [l|] eqn:Hh; [|discriminate].
    now destruct (outcome_Ok _ _ _ _ (harvest_outcome article_url doc) Hh). }
  apply parse_Ok in Hrun. destruct Hrun as [_ ->].
  assert (Hok' : @harvest_ok Doc (without_publish_date_tags I)
                             article_url doc = true).
  { unfold harvest_ok in *. rewrite Hc'. rewrite Hc in Hok.
    rewrite app_nil_r. rewrite forallb_app in Hok.
    rewrite !andb_true_iff in *.
    destruct Hok as (H1 & H2 & H3 & H4 & _). repeat split; assumption. }
  unfold parse.
  rewrite (outcome_returns _ _ _
             (@harvest_outcome Doc (without_publish_date_tags I)
                               article_url doc) Hok').
  simpl. f_equal. unfold harvest_entries. rewrite Hc, Hc'.
  rewrite app_nil_r, flat_map_app, app_assoc. symmetry.
  apply select_dates_app_unknown.
  apply Forall_flat_map_In. intros c Hin.
  eapply Forall_impl; [|apply candidate_entries_scores].
  simpl. intros m (_ & _ & _ & ->).
  apply in_flat_map in Hin. destruct Hin as (tg & _ & Hin).
  apply in_map_iff in Hin. destruct Hin as (x & <- & _). reflexivity.
Qed.

End TableProperties.


(* ================================================================== *)
(** * The further properties on the sample pages *)

Section MoreExamples.

Import Sample.

Lemma X4_publish_date_tags_never_selected_witness :
  @parse page (without_publish_date_tags imports) fresh url_without_date
         (mk_page [flat_both] [tagged_span "2023-06-01"])
  = Ok ({| pubdate := Some (ymd 2023 12 1);
           updatedate := Some (ymd 2024 1 2) |},
        Some (ymd 2024 1 2)).
Proof.
  apply (X4_publish_date_tags_never_selected imports). reflexivity.
Defined.

Lemma X5_url_date_is_published_result_witness :
  exists self' returned,
    parse fresh url_with_date busy_page = Ok (self', returned) /\
    pubdate self' = Some (ymd 2023 4 15).
Proof.
  assert (Hrun : parse fresh url_with_date busy_page =
                 Ok ({| pubdate := Some (ymd 2023 4 15);
                        updatedate := Some (ymd 2024 1 2) |},
                     Some (ymd 2024 1 2))) by reflexivity.
  assert (Hm : strict_date_search url_with_date = Some "2023/04/15/")
    by reflexivity.
  assert (Hp : parse_date_str (PyStr "2023/04/15/")
               = Ok (Some (ymd 2023 4 15))) by reflexivity.
  do 2 eexists. split; [exact Hrun|].
  apply (X5_url_date_is_published_result
           fresh url_with_date busy_page "2023/04/15/" (ymd 2023 4 15)
           _ _ Hm Hp Hrun).
Defined.

Lemma X7_results_come_from_parsed_strings_witness :
  exists raw : string, raw <> "" /\ date_parser raw = Parsed (ymd 2023 12 1).
Proof.
  assert (Hrun : parse fresh url_without_date busy_page =
                 Ok ({| pubdate := Some (ymd 2023 12 1);
                        updatedate := Some (ymd 2024 1 2) |},
                     Some (ymd 2024 1 2))) by reflexivity.
  apply (X7_results_come_from_parsed_strings
           fresh url_without_date busy_page _ _ Hrun).
  right. left. reflexivity.
Defined.

Lemma X8_on_marker_needs_backspace_witness :
  text_search PUBLISHED_TEXT_PATTERN (text time_posted_on)
  = text_search ["published"] (text time_posted_on) /\
  forall l c,
    time_tag_matches time_posted_on = Ok l -> In c l ->
    dm_type c = published ->
    text_search ["published"] (text time_posted_on) = true.
Proof.
  apply (X8_on_marker_needs_backspace time_posted_on "Posted on: Jan 2");
    reflexivity.
Defined.

Lemma X12_structured_data_outranks_later_stages_witness :
  exists self' returned,
    parse fresh url_without_date busy_page = Ok (self', returned) /\
    updatedate self' = Some (ymd 2024 1 2) /\
    pubdate self' = Some (ymd 2023 12 1).
Proof.
  assert (Hrun : parse fresh url_without_date busy_page =
                 Ok ({| pubdate := Some (ymd 2023 12 1);
                        updatedate := Some (ymd 2024 1 2) |},
                     Some (ymd 2024 1 2))) by reflexivity.
  assert (Hu : url_date_matches url_without_date = Ok []) by reflexivity.
  assert (Hld : json_ld_matches (get_ld_json_object busy_page) =
                Ok [(ymd 2024 1 2, 9, updated);
                    (ymd 2023 12 1, 9, published)]) by reflexivity.
  destruct (X12_structured_data_outranks_later_stages
              fresh url_without_date busy_page _ _ _ _ Hu Hld Hrun)
    as (Hup & Hpub).
  do 2 eexists. split; [exact Hrun|]. split.
  - rewrite Hup; [reflexivity|].
    exists (ymd 2024 1 2, 9, updated). split; [now left|reflexivity].
  - rewrite Hpub; [reflexivity|].
    exists (ymd 2023 12 1, 9, published).
    split; [right; now left|reflexivity].
Defined.

Lemma X13_earlier_evidence_wins_witness :
  next_of_type updated
               (sort_reverse ([(ymd 2024 1 2, 9, updated)]
                                ++ [(ymd 2023 11 30, 9, updated)]))
  = next_of_type updated (sort_reverse [(ymd 2024 1 2, 9, updated)]).
Proof.
  apply (X13_earlier_evidence_wins
           updated [(ymd 2024 1 2, 9, updated)]
           [(ymd 2023 11 30, 9, updated)]).
  - exists (ymd 2024 1 2, 9, updated). split; [now left|reflexivity].
  - intros x y [<-|[]] [<-|[]] _ _. unfold dm_score. simpl. lia.
Defined.

(** The page of [X4]'s example, with a value under the tagged element that
    makes the parser raise: the call raises, while with an empty table it
    returns. *)
Example tagged_overlong_time_raises :
  parse fresh url_without_date
        (mk_page [flat_both] [tagged_span overlong_time])
  = Raise (OtherError "decimal.InvalidOperation") /\
  @parse page (without_publish_date_tags imports) fresh url_without_date
         (mk_page [flat_both] [tagged_span overlong_time])
  = Ok ({| pubdate := Some (ymd 2023 12 1);
           updatedate := Some (ymd 2024 1 2) |},
        Some (ymd 2024 1 2)).
Proof. split; reflexivity. Qed.

End MoreExamples.
